(** * Medical assistant backend: the two lookup tools and the [/ask] endpoint

    A shallow embedding of [src/main.py].  The two tool functions
    [fetch_pubmed_articles] and [fetch_drug_side_effects] are Python
    functions over dynamically typed JSON data, wrapped in
    [try: ... except Exception], so the embedding has

    - [pyval], the Python values that [Response.json()] can return;
    - [pyexc], the instances of [Exception] that the body can raise;
    - an error monad [Res] for the pure Python operations and a
      monad [M] on top of it that logs the outbound [requests.get] calls;
    - the external HTTP layer as a function from the call made to its
      outcome (an exception or a response).

    Modelling notes.  A Python [str] is modelled as a Rocq [string], one
    character per code point.  [str()] of an [int] is its decimal numeral
    (CPython's configurable digit limit is not modelled).  The text of
    [str()] on a float, list or dict, and the message text of the errors the
    interpreter itself raises, are taken as parameters of the development:
    no property below depends on them. *)

From Stdlib Require Import ZArith List String Ascii Bool Lia.
From Stdlib Require Import Numbers.DecimalString Floats.SpecFloat.
Import ListNotations.

Open Scope string_scope.
Open Scope Z_scope.

(** ** Python values and exceptions *)

(** The values [json.loads] produces.  A dict is kept as an association
    list in insertion order; its keys are strings, each bound once. *)
#[local] Unset Elimination Schemes.
Inductive pyval : Type :=
| PNone
| PBool (b : bool)
| PInt (z : Z)
| PFloat (f : spec_float)
| PStr (s : string)
| PList (l : list pyval)
| PDict (d : list (string * pyval)).
#[local] Set Elimination Schemes.

(** The operation at which the interpreter raised a [TypeError]. *)
Inductive pyop : Type :=
| OpIn          (* [k in x] on a value that is no container *)
| OpSubscript   (* [x[k]] on a value that cannot be indexed that way *)
| OpLen         (* [len(x)] on a value without length *)
| OpIter        (* iteration over a value that is not iterable *)
| OpJoin        (* [sep.join(x)] with [x] not iterable *)
| OpJoinItem    (* [sep.join(x)] with an item of [x] that is no [str] *)
| OpHash.       (* an unhashable dict key *)

(** Instances of [Exception]: what [except Exception] catches. *)
Inductive pyexc : Type :=
| External (text : string)
    (* raised by the HTTP layer, [Response.json()] or the agent executor;
       [text] is [str(e)] *)
| AttributeError (obj : pyval) (attr : string)
| TypeError (op : pyop) (obj : pyval)
| KeyError (key : pyval)
| IndexError (obj : pyval).

Inductive Res (A : Type) : Type :=
| Ok (a : A)
| Raise (e : pyexc).
Arguments Ok {A} a.
Arguments Raise {A} e.

Definition bindR {A B} (m : Res A) (k : A -> Res B) : Res B :=
  match m with
  | Ok a => k a
  | Raise e => Raise e
  end.

Notation "x <- m ;; k" := (bindR m (fun x => k))
  (at level 61, m at next level, right associativity).

Fixpoint mapR {A B} (f : A -> Res B) (l : list A) : Res (list B) :=
  match l with
  | [] => Ok []
  | x :: r => y <- f x ;; ys <- mapR f r ;; Ok (y :: ys)
  end.

(** ** Strings *)

(** [sub in s] on two Python strings. *)
Fixpoint is_substring (sub s : string) : bool :=
  String.prefix sub s ||
  match s with
  | EmptyString => false
  | String _ s' => is_substring sub s'
  end.

(** Whether the character [c] occurs in [s]. *)
Fixpoint occurs (c : ascii) (s : string) : bool :=
  match s with
  | EmptyString => false
  | String a s' => Ascii.eqb a c || occurs c s'
  end.

(** The same as a proposition: [s] contains [sub]. *)
Definition contains (sub s : string) : Prop :=
  exists pre post, s = pre ++ sub ++ post.

(** [str(n)] for a Python [int]. *)
Definition str_int (z : Z) : string :=
  NilZero.string_of_int (Z.to_int z).

(** ** The Python operations the two tools use *)

Fixpoint lookup {A} (k : string) (d : list (string * A)) : option A :=
  match d with
  | [] => None
  | (k', v) :: r => if String.eqb k k' then Some v else lookup k r
  end.

(** [bool(v)]. *)
Definition truthy (v : pyval) : bool :=
  match v with
  | PNone => false
  | PBool b => b
  | PInt z => negb (z =? 0)
  | PFloat (S754_zero _) => false
  | PFloat _ => true
  | PStr s => negb (String.eqb s "")
  | PList [] => false
  | PList _ => true
  | PDict [] => false
  | PDict _ => true
  end.

(** [obj.get(key, default)]: only a dict has the method. *)
Definition py_get (obj key default : pyval) : Res pyval :=
  match obj with
  | PDict d =>
      match key with
      | PStr k => Ok (match lookup k d with Some v => v | None => default end)
      | PList _ | PDict _ => Raise (TypeError OpHash key)
      | _ => Ok default
      end
  | _ => Raise (AttributeError obj "get")
  end.

(** The items a [for] loop or [join] sees. *)
Definition py_iter (v : pyval) : Res (list pyval) :=
  match v with
  | PStr s => Ok (map (fun c => PStr (String c "")) (list_ascii_of_string s))
  | PList l => Ok l
  | PDict d => Ok (map (fun kv => PStr (fst kv)) d)
  | _ => Raise (TypeError OpIter v)
  end.

Fixpoint all_str (l : list pyval) : Res (list string) :=
  match l with
  | [] => Ok []
  | PStr s :: r => ss <- all_str r ;; Ok (s :: ss)
  | x :: _ => Raise (TypeError OpJoinItem x)
  end.

(** [sep.join(v)]. *)
Definition str_join (sep : string) (v : pyval) : Res string :=
  match py_iter v with
  | Raise _ => Raise (TypeError OpJoin v)
  | Ok items => ss <- all_str items ;; Ok (String.concat sep ss)
  end.

(** [k in v] for a string [k]. *)
Definition py_in (k : string) (v : pyval) : Res bool :=
  match v with
  | PDict d => Ok (match lookup k d with Some _ => true | None => false end)
  | PList l =>
      Ok (existsb (fun x => match x with
                            | PStr s => String.eqb k s
                            | _ => false
                            end) l)
  | PStr s => Ok (is_substring k s)
  | _ => Raise (TypeError OpIn v)
  end.

(** [v[k]] for a string [k]. *)
Definition subscript_str (v : pyval) (k : string) : Res pyval :=
  match v with
  | PDict d =>
      match lookup k d with
      | Some x => Ok x
      | None => Raise (KeyError (PStr k))
      end
  | _ => Raise (TypeError OpSubscript v)
  end.

(** [len(v)]. *)
Definition py_len (v : pyval) : Res Z :=
  match v with
  | PStr s => Ok (Z.of_nat (String.length s))
  | PList l => Ok (Z.of_nat (List.length l))
  | PDict d => Ok (Z.of_nat (List.length d))
  | _ => Raise (TypeError OpLen v)
  end.

(** [v[0]]. *)
Definition subscript_0 (v : pyval) : Res pyval :=
  match v with
  | PList (x :: _) => Ok x
  | PStr (String c _) => Ok (PStr (String c ""))
  | PList [] | PStr EmptyString => Raise (IndexError v)
  | PDict _ => Raise (KeyError (PInt 0))
  | _ => Raise (TypeError OpSubscript v)
  end.

(** ** The HTTP layer *)

(** A call [requests.get(url, params=params)]. *)
Record request : Type := {
  url : string;
  params : option (list (string * pyval))
}.

(** What the code reads of a [requests.Response]. *)
Record Response : Type := {
  status_code : Z;
  json : Res pyval
}.

(** The module's globals read from the environment ([os.getenv] gives
    [None] for an unset variable). *)
Record config : Type := {
  PUBMED_API_KEY : option string;
  FDA_API_KEY : option string
}.

Definition env_value (o : option string) : pyval :=
  match o with
  | Some s => PStr s
  | None => PNone
  end.

(** Computations that call the HTTP layer: the result or the exception,
    and the calls made so far, oldest first. *)
Definition M (A : Type) : Type := list request -> Res A * list request.

Definition ret {A} (a : A) : M A := fun log => (Ok a, log).

Definition bindM {A B} (m : M A) (k : A -> M B) : M B :=
  fun log =>
    match m log with
    | (Ok a, log') => k a log'
    | (Raise e, log') => (Raise e, log')
    end.

Definition lift {A} (r : Res A) : M A := fun log => (r, log).

(** [try: body except Exception as e: handler(e)]. *)
Definition try_except {A} (body : M A) (handler : pyexc -> M A) : M A :=
  fun log =>
    match body log with
    | (Ok a, log') => (Ok a, log')
    | (Raise e, log') => handler e log'
    end.

Notation "x <-- m ;; k" := (bindM m (fun x => k))
  (at level 61, m at next level, right associativity).

Definition run {A} (m : M A) : Res A * list request := m [].

(** ** The program *)

Section Program.

(** [str()] of a float, a list or a dict. *)
Variable repr_other : pyval -> string.

(** The message of an exception raised by the interpreter. *)
Variable runtime_text : pyexc -> string.

(** The external HTTP layer: the outcome of [requests.get] on a call.  A
    run makes at most two calls, on different URLs, so a function of the
    call covers every sequence of outcomes. *)
Variable http : request -> Res Response.

(** [str(v)], which is also what an f-string field [{v}] renders. *)
Definition py_str (v : pyval) : string :=
  match v with
  | PStr s => s
  | PNone => "None"
  | PBool true => "True"
  | PBool false => "False"
  | PInt z => str_int z
  | _ => repr_other v
  end.

(** [str(e)]. *)
Definition exc_str (e : pyexc) : string :=
  match e with
  | External text => text
  | _ => runtime_text e
  end.

Definition requests_get (u : string)
    (p : option (list (string * pyval))) : M Response :=
  fun log =>
    let r := {| url := u; params := p |} in
    (http r, (log ++ [r])%list).

(** *** Literature lookup *)

Definition PUBMED_API_URL : string :=
  "https://eutils.ncbi.nlm.nih.gov/entrez/eutils/esearch.fcgi".

Definition PUBMED_SUMMARY_API_URL : string :=
  "https://eutils.ncbi.nlm.nih.gov/entrez/eutils/esummary.fcgi".

Definition search_params (cfg : config) (search_term : string) : list (string * pyval) :=
  [ ("db", PStr "pubmed");
    ("term", PStr search_term);
    ("retmax", PInt 5);
    ("retmode", PStr "json");
    ("api_key", env_value (PUBMED_API_KEY cfg)) ].

Definition summary_params (cfg : config) (ids : string) : list (string * pyval) :=
  [ ("db", PStr "pubmed");
    ("id", PStr ids);
    ("retmode", PStr "json");
    ("api_key", env_value (PUBMED_API_KEY cfg)) ].

(** The two outbound calls, as [requests.get] receives them. *)
Definition search_request (cfg : config) (search_term : string) : request :=
  {| url := PUBMED_API_URL;
     params := Some (search_params cfg search_term) |}.

Definition summary_request (cfg : config) (ids : string) : request :=
  {| url := PUBMED_SUMMARY_API_URL;
     params := Some (summary_params cfg ids) |}.

(** One pass of the loop body over [article_id]. *)
Definition detailed_response (articles article_id : pyval) : Res string :=
  article <- py_get articles article_id (PDict []) ;;
  title <- py_get article (PStr "title") (PStr "No title available") ;;
  pub_year <- py_get article (PStr "pubdate")
                (PStr "No publication date available") ;;
  Ok ("Title: " ++ py_str title ++ ", Published: " ++ py_str pub_year).

(** The body of the [try] block. *)
Definition pubmed_body (cfg : config) (search_term : string) : M string :=
  response <-- requests_get PUBMED_API_URL
                 (Some (search_params cfg search_term)) ;;
  if status_code response =? 200 then
    data <-- lift (json response) ;;
    esearchresult <-- lift (py_get data (PStr "esearchresult") (PDict [])) ;;
    id_list <-- lift (py_get esearchresult (PStr "idlist") (PList [])) ;;
    if negb (truthy id_list) then
      ret "No articles found for this search term."
    else
      ids <-- lift (str_join "," id_list) ;;
      summary_response <-- requests_get PUBMED_SUMMARY_API_URL
                             (Some (summary_params cfg ids)) ;;
      if status_code summary_response =? 200 then
        summary_data <-- lift (json summary_response) ;;
        articles <-- lift (py_get summary_data (PStr "result") (PDict [])) ;;
        items <-- lift (py_iter id_list) ;;
        detailed_responses <-- lift (mapR (detailed_response articles) items) ;;
        ret (String.concat " | " detailed_responses)
      else
        ret ("Error: Unable to fetch article summaries. Status code "
             ++ py_str (PInt (status_code summary_response)) ++ ".")
  else
    ret ("Error: Unable to fetch PubMed articles. Status code "
         ++ py_str (PInt (status_code response)) ++ ".").

(** [cfg] stands for the module globals the function body can read. *)
Definition fetch_pubmed_articles (cfg : config) (search_term : string)
    : M string :=
  try_except (pubmed_body cfg search_term)
    (fun e => ret ("Error fetching PubMed articles: " ++ exc_str e)).

(** *** Adverse-event lookup *)

Definition FDA_API_URL (drug_name : string) : string :=
  "https://api.fda.gov/drug/event.json?search=patient.drug.medicinalproduct:"
  ++ drug_name ++ "&limit=1".

Definition fda_request (drug_name : string) : request :=
  {| url := FDA_API_URL drug_name; params := None |}.

(** ['results' in data and len(data['results']) > 0]: the right operand is
    evaluated only when the left one is true. *)
Definition has_results (data : pyval) : Res bool :=
  present <- py_in "results" data ;;
  if present then
    results <- subscript_str data "results" ;;
    n <- py_len results ;;
    Ok (0 <? n)
  else Ok false.

Definition reaction_description (reaction : pyval) : Res pyval :=
  py_get reaction (PStr "reactionmeddrapt") (PStr "No description").

Definition fda_body (drug_name : string) : M string :=
  response <-- requests_get (FDA_API_URL drug_name) None ;;
  if status_code response =? 200 then
    data <-- lift (json response) ;;
    nonempty <-- lift (has_results data) ;;
    if nonempty then
      results <-- lift (subscript_str data "results") ;;
      first <-- lift (subscript_0 results) ;;
      patient <-- lift (py_get first (PStr "patient") (PDict [])) ;;
      side_effects <-- lift (py_get patient (PStr "reaction") (PList [])) ;;
      if truthy side_effects then
        reactions <-- lift (py_iter side_effects) ;;
        side_effect_descriptions <--
          lift (mapR reaction_description reactions) ;;
        lift (str_join ", " (PList side_effect_descriptions))
      else
        ret "No side effects listed for this drug."
    else
      ret "No information available for this drug."
  else
    ret ("Error: " ++ py_str (PInt (status_code response))
         ++ " - Unable to fetch data from FDA API").

(** The globals [cfg] are in scope here as well; the body reads none. *)
Definition fetch_drug_side_effects (cfg : config) (drug_name : string)
    : M string :=
  try_except (fda_body drug_name)
    (fun e => ret ("Error fetching drug information: " ++ exc_str e)).

(** *** The endpoint *)

(** The opaque result of the agent executor. *)
Variable AgentResult : Type.

(** [agent_executor.invoke(input, config=...)]: a result or an exception. *)
Variable agent_executor_invoke :
  list (string * string) ->
  list (string * list (string * string)) ->
  Res AgentResult.

Record QueryRequest : Type := { question : string }.

(** How the handler ends: it returns a dict or raises [HTTPException]. *)
Inductive outcome : Type :=
| Returned (body : list (string * AgentResult))
| HTTPException (code : Z) (detail : string).

Definition ask_question (query : QueryRequest) : outcome :=
  let user_input := question query in
  match agent_executor_invoke
          [("input", user_input)]
          [("configurable", [("session_id", "test123")])] with
  | Ok response => Returned [("response", response)]
  | Raise e =>
      HTTPException 500 ("Error processing request: " ++ exc_str e)
  end.

(** What the web framework sends for each outcome of a handler: the
    returned value as the body of a [200] reply, an [HTTPException] as a
    reply with its status code and its detail under the key [detail]. *)
Inductive body_value : Type :=
| Opaque (r : AgentResult)
| Text (s : string).

Record reply : Type := {
  reply_status : Z;
  reply_body : list (string * body_value)
}.

Definition serve (o : outcome) : reply :=
  match o with
  | Returned body =>
      {| reply_status := 200;
         reply_body := map (fun kv => (fst kv, Opaque (snd kv))) body |}
  | HTTPException code detail =>
      {| reply_status := code; reply_body := [("detail", Text detail)] |}
  end.

End Program.

Arguments Returned {AgentResult} body.
Arguments HTTPException {AgentResult} code detail.
Arguments Opaque {AgentResult} r.
Arguments Text {AgentResult} s.

(** What a tool call returns, and the outbound calls it made. *)
Definition result {A} (m : M A) : Res A := fst (run m).
Definition calls {A} (m : M A) : list request := snd (run m).

(** The call returns a string (it does not raise) and the string contains
    [sub]. *)
Definition returns_containing (m : M string) (sub : string) : Prop :=
  exists out, result m = Ok out /\ contains sub out.

(** ** Well-shaped responses

    The vocabulary in which the properties describe the JSON bodies the two
    APIs send. *)

(** The member [k] of a JSON object. *)
Definition field (k : string) (v : pyval) : option pyval :=
  match v with
  | PDict d => lookup k d
  | _ => None
  end.

(** An adverse-event body without results: an object in which [results] is
    missing or is the empty list. *)
Definition no_results (data : pyval) : Prop :=
  exists d, data = PDict d
            /\ (lookup "results" d = None
                \/ lookup "results" d = Some (PList [])).

(** A result object without a reaction list: [patient] is missing, or it is
    an object in which [reaction] is missing or the empty list. *)
Definition no_reaction_list (first : pyval) : Prop :=
  exists f, first = PDict f
            /\ (lookup "patient" f = None
                \/ exists p, lookup "patient" f = Some (PDict p)
                             /\ (lookup "reaction" p = None
                                 \/ lookup "reaction" p = Some (PList []))).

(** A reaction entry is an object; its description, when it has one, is a
    string. *)
Definition reaction_entry_ok (r : list (string * pyval)) : Prop :=
  lookup "reactionmeddrapt" r = None
  \/ exists s, lookup "reactionmeddrapt" r = Some (PStr s).

(** The description expected for a reaction entry. *)
Definition description (r : list (string * pyval)) : string :=
  match lookup "reactionmeddrapt" r with
  | Some (PStr s) => s
  | _ => "No description"
  end.

(** The record expected for an identifier, given the result map of the
    summary body. *)
Section Expected.

Variable repr_other : pyval -> string.

(** The summary of [id]; an identifier the map does not have reads as an
    empty summary. *)
Definition summary_of (articles : list (string * pyval)) (id : string)
    : list (string * pyval) :=
  match lookup id articles with
  | Some (PDict a) => a
  | _ => []
  end.

Definition title_of (summary : list (string * pyval)) : string :=
  match lookup "title" summary with
  | Some t => py_str repr_other t
  | None => "No title available"
  end.

Definition pubdate_of (summary : list (string * pyval)) : string :=
  match lookup "pubdate" summary with
  | Some p => py_str repr_other p
  | None => "No publication date available"
  end.

Definition article_entry (articles : list (string * pyval)) (id : string)
    : string :=
  "Title: " ++ title_of (summary_of articles id)
  ++ ", Published: " ++ pubdate_of (summary_of articles id).

End Expected.

(** Every identifier is either missing from the result map or mapped to an
    object. *)
Definition summaries_ok (articles : list (string * pyval))
    (ids : list string) : Prop :=
  Forall (fun id => lookup id articles = None
                    \/ exists a, lookup id articles = Some (PDict a)) ids.

(** The scenario of the specification: the search answers with the
    identifiers 1 and 2, the summary call with titles A, B and dates 2020,
    2021. *)
Definition scenario_search_body : pyval :=
  PDict [("esearchresult", PDict [("idlist", PList [PStr "1"; PStr "2"])])].

Definition scenario_summary_body : pyval :=
  PDict [("result",
          PDict [("1", PDict [("title", PStr "A"); ("pubdate", PStr "2020")]);
                 ("2", PDict [("title", PStr "B"); ("pubdate", PStr "2021")])])].

Definition scenario_http (r : request) : Res Response :=
  if String.eqb (url r) PUBMED_API_URL then
    Ok {| status_code := 200; json := Ok scenario_search_body |}
  else if String.eqb (url r) PUBMED_SUMMARY_API_URL then
    Ok {| status_code := 200; json := Ok scenario_summary_body |}
  else Raise (External "connection refused").

(** ** Sample worlds

    Concrete HTTP layers, agent executors and renderings on which the
    properties are instantiated. *)

Definition sample_repr (v : pyval) : string := "<object>".

Definition sample_text (e : pyexc) : string :=
  match e with
  | External text => text
  | AttributeError _ attr => "object has no attribute " ++ attr
  | TypeError _ _ => "unsupported operand"
  | KeyError _ => "key"
  | IndexError _ => "index out of range"
  end.

Definition sample_cfg : config :=
  {| PUBMED_API_KEY := Some "ncbi-key"; FDA_API_KEY := Some "fda-key" |}.

(** Every call fails in transport. *)
Definition http_down (r : request) : Res Response :=
  Raise (External "Connection refused").

(** Every call is answered with status [s] and an undecodable body. *)
Definition http_status (s : Z) (r : request) : Res Response :=
  Ok {| status_code := s; json := Raise (External "Expecting value") |}.

(** Every call is answered with status 200 and the body [body]. *)
Definition http_body (body : pyval) (r : request) : Res Response :=
  Ok {| status_code := 200; json := Ok body |}.

Definition empty_search_body : pyval :=
  PDict [("esearchresult", PDict [("count", PStr "0"); ("idlist", PList [])])].

(** The summary call knows identifier 1 only. *)
Definition partial_summary_body : pyval :=
  PDict [("result",
          PDict [("1", PDict [("title", PStr "A"); ("pubdate", PStr "2020")])])].

Definition partial_http (r : request) : Res Response :=
  if String.eqb (url r) PUBMED_API_URL then
    Ok {| status_code := 200; json := Ok scenario_search_body |}
  else Ok {| status_code := 200; json := Ok partial_summary_body |}.

Definition nausea_reactions : list (list (string * pyval)) :=
  [ [("reactionmeddrapt", PStr "NAUSEA")];
    [("reactionoutcome", PStr "1")] ].

Definition nausea_patient : pyval :=
  PDict [("reaction", PList (map PDict nausea_reactions))].

Definition nausea_body : pyval :=
  PDict [("results", PList [PDict [("patient", nausea_patient)]])].

Definition invoke_answers (input : list (string * string))
    (config : list (string * list (string * string))) : Res string :=
  Ok "Fever is usually caused by infection.".

Definition invoke_fails (input : list (string * string))
    (config : list (string * list (string * string))) : Res string :=
  Raise (External "model unavailable").

(** The search call is answered with [search_body], any other call with
    [summary_body], both with status 200. *)
Definition pubmed_http (search_body summary_body : pyval) (r : request)
    : Res Response :=
  if String.eqb (url r) PUBMED_API_URL then
    Ok {| status_code := 200; json := Ok search_body |}
  else Ok {| status_code := 200; json := Ok summary_body |}.

(** Identifier 2 is bound to a string instead of a summary object. *)
Definition broken_summary_body : pyval :=
  PDict [("result",
          PDict [("1", PDict [("title", PStr "A"); ("pubdate", PStr "2020")]);
                 ("2", PStr "withdrawn")])].

(** The second identifier is a number. *)
Definition numeric_id_search_body : pyval :=
  PDict [("esearchresult", PDict [("idlist", PList [PStr "1"; PInt 2])])].

Definition coded_reactions : list (list (string * pyval)) :=
  [ [("reactionmeddrapt", PStr "NAUSEA")];
    [("reactionmeddrapt", PInt 7)] ].

Definition coded_body : pyval :=
  PDict [("results",
          PList [PDict [("patient",
                         PDict [("reaction",
                                 PList (map PDict coded_reactions))])]])].

(** The body of [nausea_body] with a second result after the first. *)
Definition two_results_body : pyval :=
  PDict [("results",
          PList [PDict [("patient", nausea_patient)];
                 PDict [("patient", PDict [("reaction", PList [])])]])].

(** ** Bodies with missing or empty members *)

(** A search body that yields no identifiers: an object without
    [esearchresult], or one whose [esearchresult] object has no [idlist] or
    an [idlist] that Python takes as false ([[]], [null], [""], [0], ...). *)
Definition no_identifiers (data : pyval) : Prop :=
  exists d,
    data = PDict d
    /\ (lookup "esearchresult" d = None
        \/ exists e,
            lookup "esearchresult" d = Some (PDict e)
            /\ (lookup "idlist" e = None
                \/ exists v, lookup "idlist" e = Some v
                             /\ truthy v = false)).

(** An adverse-event body whose [results] member is an empty list, an empty
    object or the empty string. *)
Definition empty_results (data : pyval) : Prop :=
  exists d v,
    data = PDict d
    /\ lookup "results" d = Some v
    /\ (v = PList [] \/ v = PDict [] \/ v = PStr "").

(** A result object whose [patient.reaction], read with the defaults of the
    code, is a value that Python takes as false. *)
Definition falsy_reaction (first : pyval) : Prop :=
  exists f,
    first = PDict f
    /\ (lookup "patient" f = None
        \/ exists p,
            lookup "patient" f = Some (PDict p)
            /\ (lookup "reaction" p = None
                \/ exists v, lookup "reaction" p = Some v
                             /\ truthy v = false)).

(** A value that is no string, and one that is no object. *)
Definition not_a_string (v : pyval) : Prop := forall s, v <> PStr s.
Definition not_an_object (v : pyval) : Prop := forall d, v <> PDict d.

(** The value the code reads as the description of a reaction entry. *)
Definition description_value (r : list (string * pyval)) : pyval :=
  match lookup "reactionmeddrapt" r with
  | Some v => v
  | None => PStr "No description"
  end.

(** ** The forms of a tool's output *)

(** A record of the literature lookup. *)
Definition is_record (r : string) : Prop :=
  exists t p, r = "Title: " ++ t ++ ", Published: " ++ p.

(** The record of an identifier about which nothing is known. *)
Definition placeholder_record : string :=
  "Title: No title available, Published: No publication date available".

(** The strings [fetch_pubmed_articles] has a [return] for. *)
Inductive pubmed_output (runtime_text : pyexc -> string) : string -> Prop :=
| pubmed_no_articles :
    pubmed_output runtime_text "No articles found for this search term."
| pubmed_search_failed (s : Z) :
    s <> 200 ->
    pubmed_output runtime_text
      ("Error: Unable to fetch PubMed articles. Status code "
       ++ str_int s ++ ".")
| pubmed_summary_failed (s : Z) :
    s <> 200 ->
    pubmed_output runtime_text
      ("Error: Unable to fetch article summaries. Status code "
       ++ str_int s ++ ".")
| pubmed_exception (e : pyexc) :
    pubmed_output runtime_text
      ("Error fetching PubMed articles: " ++ exc_str runtime_text e)
| pubmed_records (records : list string) :
    records <> [] ->
    Forall is_record records ->
    pubmed_output runtime_text (String.concat " | " records).

(** The messages of [fetch_drug_side_effects]: every string it returns that
    is not a list of descriptions. *)
Inductive fda_message (runtime_text : pyexc -> string) : string -> Prop :=
| fda_no_information :
    fda_message runtime_text "No information available for this drug."
| fda_no_side_effects :
    fda_message runtime_text "No side effects listed for this drug."
| fda_failed (s : Z) :
    s <> 200 ->
    fda_message runtime_text
      ("Error: " ++ str_int s ++ " - Unable to fetch data from FDA API")
| fda_exception (e : pyexc) :
    fda_message runtime_text
      ("Error fetching drug information: " ++ exc_str runtime_text e).

(** ** The tool registry *)

Module Registry.


Section Tools.

Variable repr_other : pyval -> string.
Variable runtime_text : pyexc -> string.
Variable http : request -> Res Response.
Variable cfg : config.




End Tools.

End Registry.

(** * Properties *)

(** ** Strings *)

Lemma contains_mid (pre sub post : string) : contains sub (pre ++ sub ++ post).
Proof. exists pre, post. reflexivity. Qed.

Lemma append_empty_r (a : string) : a ++ "" = a.
Proof. induction a as [|x a IH]; cbn; [reflexivity | now rewrite IH]. Qed.

Lemma contains_end (pre sub : string) : contains sub (pre ++ sub).
Proof. exists pre, "". now rewrite append_empty_r. Qed.

Lemma prefix_app (p post : string) : String.prefix p (p ++ post) = true.
Proof.
  induction p as [|a p IH]; cbn.
  - now destruct post.
  - destruct (ascii_dec a a); [exact IH | congruence].
Qed.

Lemma prefix_split (p s : string) :
  String.prefix p s = true -> exists post, s = p ++ post.
Proof.
  revert s. induction p as [|a p IH]; intros s H.
  - exists s. reflexivity.
  - destruct s as [|b s]; cbn in H; [discriminate|].
    destruct (ascii_dec a b) as [->|]; [|discriminate].
    destruct (IH _ H) as [post ->]. now exists post.
Qed.

(** The boolean test decides [contains]. *)
Lemma is_substring_spec (sub s : string) :
  is_substring sub s = true <-> contains sub s.
Proof.
  split.
  - induction s as [|c s IH]; cbn [is_substring]; intros H.
    + apply orb_true_iff in H as [H|H]; [|discriminate].
      destruct (prefix_split _ _ H) as [post ->]. now exists "", post.
    + apply orb_true_iff in H as [H|H].
      * destruct (prefix_split _ _ H) as [post ->]. now exists "", post.
      * destruct (IH H) as (pre & post & ->). now exists (String c pre), post.
  - intros (pre & post & ->).
    induction pre as [|c pre IH].
    + cbn [append]. destruct (sub ++ post) eqn:E; cbn [is_substring];
        rewrite <- E, prefix_app; reflexivity.
    + cbn [append is_substring]. rewrite IH. apply orb_true_r.
Qed.

(** A pattern in which the character [c] does not occur cannot run across
    a [c] of the text. *)
Lemma prefix_before (c : ascii) (tail p x : string) :
  occurs c p = false ->
  String.prefix p (x ++ String c tail) = String.prefix p x.
Proof.
  revert x. induction p as [|a p IH]; intros x Hp.
  - now destruct x.
  - cbn in Hp. apply orb_false_iff in Hp as [Hac Hp].
    destruct x as [|b x]; cbn.
    + destruct (ascii_dec a c) as [->|]; [|reflexivity].
      now rewrite Ascii.eqb_refl in Hac.
    + destruct (ascii_dec a b); [now apply IH | reflexivity].
Qed.

Lemma is_substring_across (c : ascii) (tail p x : string) :
  occurs c p = false ->
  is_substring p (x ++ String c tail)
  = is_substring p x || is_substring p tail.
Proof.
  intros Hp. induction x as [|b x IH].
  - pose proof (prefix_before c tail p "" Hp) as E.
    cbn [append is_substring] in *. rewrite E.
    now rewrite orb_false_r.
  - change (String b x ++ String c tail) with (String b (x ++ String c tail)).
    cbn [is_substring].
    change (String b (x ++ String c tail)) with (String b x ++ String c tail).
    rewrite (prefix_before c tail p (String b x) Hp), IH.
    now rewrite orb_assoc.
Qed.

Section Properties.

Variable repr_other : pyval -> string.
Variable runtime_text : pyexc -> string.

Local Abbreviation pubmed := (fetch_pubmed_articles repr_other runtime_text).
Local Abbreviation fda := (fetch_drug_side_effects repr_other runtime_text).
Local Abbreviation entry := (article_entry repr_other).
Local Notation "'str' e" := (exc_str runtime_text e) (at level 10).

Ltac unfold_tools :=
  unfold result, calls, run, fetch_pubmed_articles, fetch_drug_side_effects,
    try_except, pubmed_body, fda_body, bindM, requests_get, lift, ret,
    search_request, summary_request, fda_request in *;
  cbn [app] in *.

(* Case analysis on a scrutinee that has no case analysis inside. *)
Ltac case_split :=
  match goal with
  | |- context [match ?x with _ => _ end] =>
      lazymatch x with
      | context [match _ with _ => _ end] => fail
      | _ => destruct x eqn:?
      end
  end.

Ltac run_tool := unfold_tools; repeat case_split; cbn [fst snd app] in *.

(* Clean-up after the case analysis: membership in the list of calls, and
   equations between outcomes. *)
Ltac tidy :=
  repeat match goal with
         | H : In _ _ |- _ => cbn [In] in H
         | H : _ \/ _ |- _ => destruct H as [H|H]
         | H : False |- _ => destruct H
         | H : {| url := _; params := _ |} = _ |- _ => subst
         | H1 : ?f ?r = _, H2 : ?f ?r = _ |- _ => rewrite H1 in H2
         | H : Ok _ = Ok _ |- _ => injection H as H; subst
         | H : Ok _ = Raise _ |- _ => discriminate H
         | H : Raise _ = Ok _ |- _ => discriminate H
         | H : Raise _ = Raise _ |- _ => injection H as H; subst
         | H : (_ =? _) = true |- _ => apply Z.eqb_eq in H
         | H : (_ =? _) = false |- _ => apply Z.eqb_neq in H
         end.

(** *** Outbound calls *)

Lemma pubmed_calls_search_first http cfg term :
  exists rest,
    calls (pubmed http cfg term) = search_request cfg term :: rest.
Proof. run_tool; eexists; reflexivity. Qed.

Lemma fda_calls http cfg drug_name :
  calls (fda http cfg drug_name) = [fda_request drug_name].
Proof. run_tool; reflexivity. Qed.

(** C8: the literature search call carries [retmax = 5] and the API key
    under [api_key]; the adverse-event call is made on a URL that ends in
    [&limit=1].  Both hold for every invocation, whatever the HTTP layer
    answers. *)
Theorem outbound_result_caps http cfg search_term drug_name :
  (exists rest,
      calls (pubmed http cfg search_term)
      = {| url := PUBMED_API_URL;
           params := Some (search_params cfg search_term) |} :: rest)
  /\ lookup "retmax" (search_params cfg search_term) = Some (PInt 5)
  /\ lookup "api_key" (search_params cfg search_term)
     = Some (env_value (PUBMED_API_KEY cfg))
  /\ calls (fda http cfg drug_name)
     = [ {| url :=
              "https://api.fda.gov/drug/event.json?search=patient.drug.medicinalproduct:"
              ++ drug_name ++ "&limit=1";
            params := None |} ].
Proof.
  split; [apply pubmed_calls_search_first|].
  split; [reflexivity|]. split; [reflexivity|].
  apply fda_calls.
Qed.

(** C9, as amended: the drug-API key of the configuration never reaches
    the adverse-event call.  The call passes no parameter dict; its URL is
    the fixed template around the drug name, which is interpolated verbatim,
    so [api_key] occurs in the URL exactly when it occurs in the drug name
    itself; and replacing the configured key by any other value changes
    neither the calls made nor the result. *)
Theorem fda_key_never_attached http cfg drug_name key :
  calls (fda http cfg drug_name) = [fda_request drug_name]
  /\ params (fda_request drug_name) = None
  /\ is_substring "api_key" (url (fda_request drug_name))
     = is_substring "api_key" drug_name
  /\ run (fda http {| PUBMED_API_KEY := PUBMED_API_KEY cfg;
                      FDA_API_KEY := key |} drug_name)
     = run (fda http cfg drug_name).
Proof.
  split; [apply fda_calls|]. split; [reflexivity|]. split; [|reflexivity].
  cbn [url fda_request]. unfold FDA_API_URL.
  change ("https://api.fda.gov/drug/event.json?search=patient.drug.medicinalproduct:"
          ++ drug_name ++ "&limit=1")
    with ("https://api.fda.gov/drug/event.json?search=patient.drug.medicinalproduct"
          ++ String ":" (drug_name ++ String "&" "limit=1")).
  rewrite !is_substring_across by reflexivity.
  change (is_substring "api_key" "limit=1") with false.
  now rewrite orb_false_r.
Qed.

(** *** Status codes *)

Lemma pubmed_bad_status http cfg term r resp :
  In r (calls (pubmed http cfg term)) ->
  http r = Ok resp ->
  status_code resp <> 200 ->
  result (pubmed http cfg term)
  = Ok (if String.eqb (url r) PUBMED_API_URL
        then "Error: Unable to fetch PubMed articles. Status code "
             ++ str_int (status_code resp) ++ "."
        else "Error: Unable to fetch article summaries. Status code "
             ++ str_int (status_code resp) ++ ".").
Proof.
  revert r resp. run_tool; intros r resp Hin Hr Hs; tidy;
    try congruence; try reflexivity.
Qed.

Lemma fda_bad_status http cfg drug_name resp :
  http (fda_request drug_name) = Ok resp ->
  status_code resp <> 200 ->
  result (fda http cfg drug_name)
  = Ok ("Error: " ++ str_int (status_code resp)
        ++ " - Unable to fetch data from FDA API").
Proof.
  intros Hr Hs. unfold_tools. rewrite Hr.
  destruct (Z.eqb_spec (status_code resp) 200); [contradiction | reflexivity].
Qed.

(** C3: whenever a call of [fetch_pubmed_articles] (the search or the summary
    call) is answered with a status [s] outside 200..299, the function
    returns a string that contains the decimal numeral of [s]; the same for
    the single call of [fetch_drug_side_effects].  The failure is a returned
    value, nothing is raised. *)
Theorem bad_status_is_reported http cfg search_term drug_name s :
  ~ (200 <= s <= 299) ->
  (forall r resp,
      In r (calls (pubmed http cfg search_term)) ->
      http r = Ok resp ->
      status_code resp = s ->
      returns_containing (pubmed http cfg search_term) (str_int s))
  /\ (forall r resp,
         In r (calls (fda http cfg drug_name)) ->
         http r = Ok resp ->
         status_code resp = s ->
         returns_containing (fda http cfg drug_name) (str_int s)).
Proof.
  intros Hs. split; intros r resp Hin Hr <-.
  - eexists. split.
    + apply (pubmed_bad_status _ _ _ r resp Hin Hr). lia.
    + destruct (String.eqb (url r) PUBMED_API_URL); apply contains_mid.
  - rewrite fda_calls in Hin. destruct Hin as [<-|[]].
    eexists. split.
    + apply (fda_bad_status _ _ _ resp Hr). lia.
    + apply contains_mid.
Qed.

(** *** No exception leaves a tool *)

Lemma pubmed_total http cfg term :
  exists out, result (pubmed http cfg term) = Ok out.
Proof. run_tool; eexists; reflexivity. Qed.

Lemma fda_total http cfg drug_name :
  exists out, result (fda http cfg drug_name) = Ok out.
Proof. run_tool; eexists; reflexivity. Qed.

Lemma pubmed_call_raises http cfg term r e :
  In r (calls (pubmed http cfg term)) ->
  http r = Raise e ->
  result (pubmed http cfg term)
  = Ok ("Error fetching PubMed articles: " ++ str e).
Proof.
  revert r e. run_tool; intros r e' Hin Hr; tidy;
    try congruence; try reflexivity.
Qed.

Lemma pubmed_json_raises http cfg term r resp e :
  In r (calls (pubmed http cfg term)) ->
  http r = Ok resp ->
  status_code resp = 200 ->
  json resp = Raise e ->
  result (pubmed http cfg term)
  = Ok ("Error fetching PubMed articles: " ++ str e).
Proof.
  revert r resp e. run_tool; intros r resp e' Hin Hr Hs Hj; tidy;
    try congruence; try reflexivity.
Qed.

Lemma fda_call_raises http cfg drug_name e :
  http (fda_request drug_name) = Raise e ->
  result (fda http cfg drug_name)
  = Ok ("Error fetching drug information: " ++ str e).
Proof. intros Hr. unfold_tools. now rewrite Hr. Qed.

Lemma fda_json_raises http cfg drug_name resp e :
  http (fda_request drug_name) = Ok resp ->
  status_code resp = 200 ->
  json resp = Raise e ->
  result (fda http cfg drug_name)
  = Ok ("Error fetching drug information: " ++ str e).
Proof. intros Hr Hs Hj. unfold_tools. now rewrite Hr, Hs, Hj. Qed.

(** C2: whatever the HTTP layer does and whatever the input is, both tools
    return a string and raise nothing.  When a call they make raises an
    exception [e], or a response they read raises [e] while its body is
    decoded, the returned string is the tool's fixed prefix followed by
    [str(e)]. *)
Theorem tools_never_raise http cfg search_term drug_name :
  (exists out, result (pubmed http cfg search_term) = Ok out)
  /\ (exists out, result (fda http cfg drug_name) = Ok out)
  /\ (forall r e,
         In r (calls (pubmed http cfg search_term)) ->
         http r = Raise e ->
         result (pubmed http cfg search_term)
         = Ok ("Error fetching PubMed articles: " ++ str e))
  /\ (forall r e,
         In r (calls (fda http cfg drug_name)) ->
         http r = Raise e ->
         result (fda http cfg drug_name)
         = Ok ("Error fetching drug information: " ++ str e))
  /\ (forall r resp e,
         In r (calls (pubmed http cfg search_term)) ->
         http r = Ok resp -> status_code resp = 200 -> json resp = Raise e ->
         result (pubmed http cfg search_term)
         = Ok ("Error fetching PubMed articles: " ++ str e))
  /\ (forall r resp e,
         In r (calls (fda http cfg drug_name)) ->
         http r = Ok resp -> status_code resp = 200 -> json resp = Raise e ->
         result (fda http cfg drug_name)
         = Ok ("Error fetching drug information: " ++ str e)).
Proof.
  split; [apply pubmed_total|]. split; [apply fda_total|].
  split; [intros r e; apply pubmed_call_raises|].
  split.
  { intros r e Hin Hr. rewrite fda_calls in Hin. destruct Hin as [<-|[]].
    now apply fda_call_raises. }
  split; [intros r resp e; apply pubmed_json_raises|].
  intros r resp e Hin Hr Hs Hj. rewrite fda_calls in Hin.
  destruct Hin as [<-|[]]. now apply (fda_json_raises _ _ _ resp).
Qed.

(** *** Reading well-shaped bodies *)

Lemma py_get_field k v x default :
  field k v = Some x -> py_get v (PStr k) default = Ok x.
Proof. destruct v; cbn; try discriminate. now intros ->. Qed.

Lemma py_get_missing k d default :
  lookup k d = None -> py_get (PDict d) (PStr k) default = Ok default.
Proof. cbn. now intros ->. Qed.

(** C5: when the search call succeeds and the identifier list of its body
    is the empty list, [fetch_pubmed_articles] returns exactly the fixed
    string, as a value, and the search call is the only call made. *)
Theorem empty_idlist_no_articles http cfg search_term resp data esr :
  http (search_request cfg search_term) = Ok resp ->
  status_code resp = 200 ->
  json resp = Ok data ->
  field "esearchresult" data = Some esr ->
  field "idlist" esr = Some (PList []) ->
  run (pubmed http cfg search_term)
  = (Ok "No articles found for this search term.",
     [search_request cfg search_term]).
Proof.
  intros Hr Hs Hj He Hi. unfold_tools. rewrite Hr, Hs, Hj. cbn.
  rewrite (py_get_field _ _ _ _ He), (py_get_field _ _ _ _ Hi).
  reflexivity.
Qed.

(** *** Adverse-event bodies *)

Lemma fda_ok_body http cfg drug_name resp data :
  http (fda_request drug_name) = Ok resp ->
  status_code resp = 200 ->
  json resp = Ok data ->
  result (fda http cfg drug_name)
  = match
      (nonempty <- has_results data ;;
       if nonempty : bool then
         results <- subscript_str data "results" ;;
         first <- subscript_0 results ;;
         patient <- py_get first (PStr "patient") (PDict []) ;;
         side_effects <- py_get patient (PStr "reaction") (PList []) ;;
         if truthy side_effects then
           reactions <- py_iter side_effects ;;
           descriptions <- mapR reaction_description reactions ;;
           str_join ", " (PList descriptions)
         else Ok "No side effects listed for this drug."
       else Ok "No information available for this drug.")
    with
    | Ok out => Ok out
    | Raise e => Ok ("Error fetching drug information: " ++ str e)
    end.
Proof.
  intros Hr Hs Hj. unfold_tools. rewrite Hr, Hs, Hj. cbn [Z.eqb Pos.eqb].
  unfold bindR. repeat case_split; reflexivity.
Qed.

(** C6: on a successful adverse-event response whose body has no [results]
    member or an empty results list, [fetch_drug_side_effects] returns
    exactly ["No information available for this drug."]; when the first
    result has no reaction list it returns the fixed string
    ["No side effects listed for this drug."]. *)
Theorem no_information_strings http cfg drug_name resp data :
  http (fda_request drug_name) = Ok resp ->
  status_code resp = 200 ->
  json resp = Ok data ->
  (no_results data ->
   result (fda http cfg drug_name)
   = Ok "No information available for this drug.")
  /\ (forall first rest,
         field "results" data = Some (PList (first :: rest)) ->
         no_reaction_list first ->
         result (fda http cfg drug_name)
         = Ok "No side effects listed for this drug.").
Proof.
  intros Hr Hs Hj. rewrite (fda_ok_body _ _ _ _ _ Hr Hs Hj). split.
  - intros (d & -> & [H|H]); cbn; now rewrite H.
  - intros first rest Hres (f & -> & Hf).
    destruct data as [| | | | | |d]; try discriminate. cbn in Hres.
    cbn. rewrite Hres. cbn.
    destruct Hf as [H|(p & H & [H'|H'])]; rewrite H; cbn;
      try rewrite H'; reflexivity.
Qed.

Lemma all_str_strings (l : list string) : all_str (map PStr l) = Ok l.
Proof. induction l as [|x l IH]; cbn; [reflexivity | now rewrite IH]. Qed.

Lemma str_join_strings sep (l : list string) :
  str_join sep (PList (map PStr l)) = Ok (String.concat sep l).
Proof. unfold str_join. cbn. now rewrite all_str_strings. Qed.

Lemma reaction_descriptions (reactions : list (list (string * pyval))) :
  Forall reaction_entry_ok reactions ->
  mapR reaction_description (map PDict reactions)
  = Ok (map PStr (map description reactions)).
Proof.
  induction 1 as [|r l Hr _ IH]; cbn; [reflexivity|].
  rewrite IH. unfold description.
  destruct Hr as [H|[s H]]; rewrite H; reflexivity.
Qed.

(** C7: on a successful adverse-event response whose first result has a
    non-empty reaction list, [fetch_drug_side_effects] returns the
    descriptions of the entries joined with [", "]: one description per
    entry and in the order of the list, with ["No description"] in the place
    of an entry that has no description member. *)
Theorem reactions_are_joined http cfg drug_name resp data first rest
    patient reactions :
  http (fda_request drug_name) = Ok resp ->
  status_code resp = 200 ->
  json resp = Ok data ->
  field "results" data = Some (PList (first :: rest)) ->
  field "patient" first = Some patient ->
  field "reaction" patient = Some (PList (map PDict reactions)) ->
  reactions <> [] ->
  Forall reaction_entry_ok reactions ->
  result (fda http cfg drug_name)
  = Ok (String.concat ", " (map description reactions))
  /\ List.length (map description reactions) = List.length reactions
  /\ (forall r, In r reactions ->
                lookup "reactionmeddrapt" r = None ->
                description r = "No description").
Proof.
  intros Hr Hs Hj Hres Hp Hre Hne Hok.
  split; [|split; [apply length_map|]].
  - rewrite (fda_ok_body _ _ _ _ _ Hr Hs Hj).
    destruct data as [| | | | | |d]; try discriminate. cbn in Hres.
    cbn. rewrite Hres. cbn.
    rewrite (py_get_field _ _ _ _ Hp). cbn.
    rewrite (py_get_field _ _ _ _ Hre). cbn.
    destruct reactions as [|r0 l]; [contradiction|].
    cbn [map truthy py_iter bindR].
    change (PDict r0 :: map PDict l) with (map PDict (r0 :: l)).
    rewrite (reaction_descriptions _ Hok). cbn [bindR].
    now rewrite all_str_strings.
  - intros r _ H. unfold description. now rewrite H.
Qed.

(** *** The success path of the literature lookup *)

Lemma detailed_responses_entries articles ids :
  summaries_ok articles ids ->
  mapR (detailed_response repr_other (PDict articles)) (map PStr ids)
  = Ok (map (entry articles) ids).
Proof.
  induction 1 as [|id l Hid _ IH]; cbn [map mapR]; [reflexivity|].
  rewrite IH. unfold detailed_response, article_entry, summary_of,
    title_of, pubdate_of.
  destruct Hid as [H|[a H]]; cbn; rewrite H; cbn.
  - reflexivity.
  - destruct (lookup "title" a), (lookup "pubdate" a); reflexivity.
Qed.

Lemma pubmed_success http cfg term resp data esr ids sresp sdata articles :
  http (search_request cfg term) = Ok resp ->
  status_code resp = 200 ->
  json resp = Ok data ->
  field "esearchresult" data = Some esr ->
  field "idlist" esr = Some (PList (map PStr ids)) ->
  ids <> [] ->
  http (summary_request cfg (String.concat "," ids)) = Ok sresp ->
  status_code sresp = 200 ->
  json sresp = Ok sdata ->
  field "result" sdata = Some (PDict articles) ->
  summaries_ok articles ids ->
  run (pubmed http cfg term)
  = (Ok (String.concat " | " (map (entry articles) ids)),
     [search_request cfg term;
      summary_request cfg (String.concat "," ids)]).
Proof.
  intros Hr Hs Hj He Hi Hne Hsr Hss Hsj Hres Hok.
  unfold_tools. rewrite Hr, Hs, Hj. cbn [Z.eqb Pos.eqb].
  rewrite (py_get_field _ _ _ _ He), (py_get_field _ _ _ _ Hi).
  replace (negb (truthy (PList (map PStr ids)))) with false
    by (destruct ids; [contradiction | reflexivity]).
  rewrite str_join_strings, Hsr, Hss, Hsj. cbn [Z.eqb Pos.eqb].
  rewrite (py_get_field _ _ _ _ Hres). cbn [py_iter].
  now rewrite (detailed_responses_entries _ _ Hok).
Qed.

(** C4: when both literature calls succeed, the output is the records of
    the identifiers joined with [" | "], each record being
    ["Title: {t}, Published: {p}"] with the title and publication date of
    the identifier's summary, or the fixed placeholder where the summary has
    no such member.  In the scenario with identifiers 1, 2, titles A, B and
    dates 2020, 2021 the output is exactly
    ["Title: A, Published: 2020 | Title: B, Published: 2021"]. *)
Theorem articles_are_formatted http cfg search_term resp data esr ids
    sresp sdata articles :
  http (search_request cfg search_term) = Ok resp ->
  status_code resp = 200 ->
  json resp = Ok data ->
  field "esearchresult" data = Some esr ->
  field "idlist" esr = Some (PList (map PStr ids)) ->
  ids <> [] ->
  http (summary_request cfg (String.concat "," ids)) = Ok sresp ->
  status_code sresp = 200 ->
  json sresp = Ok sdata ->
  field "result" sdata = Some (PDict articles) ->
  summaries_ok articles ids ->
  result (pubmed http cfg search_term)
  = Ok (String.concat " | "
          (map (fun id =>
                  "Title: " ++ title_of repr_other (summary_of articles id)
                  ++ ", Published: "
                  ++ pubdate_of repr_other (summary_of articles id)) ids))
  /\ result (pubmed scenario_http cfg "diabetes symptoms")
     = Ok "Title: A, Published: 2020 | Title: B, Published: 2021".
Proof.
  intros Hr Hs Hj He Hi Hne Hsr Hss Hsj Hres Hok. split.
  - unfold result.
    now rewrite (pubmed_success _ _ _ _ _ _ _ _ _ _
                   Hr Hs Hj He Hi Hne Hsr Hss Hsj Hres Hok).
  - reflexivity.
Qed.

(** C10: on the success path the output is the join of exactly one record
    per identifier, in the order of the identifier list; an identifier that
    the summary result map does not have still gets its record, made of the
    two placeholders. *)
Theorem one_entry_per_identifier http cfg search_term resp data esr ids
    sresp sdata articles :
  http (search_request cfg search_term) = Ok resp ->
  status_code resp = 200 ->
  json resp = Ok data ->
  field "esearchresult" data = Some esr ->
  field "idlist" esr = Some (PList (map PStr ids)) ->
  ids <> [] ->
  http (summary_request cfg (String.concat "," ids)) = Ok sresp ->
  status_code sresp = 200 ->
  json sresp = Ok sdata ->
  field "result" sdata = Some (PDict articles) ->
  summaries_ok articles ids ->
  exists entries,
    result (pubmed http cfg search_term) = Ok (String.concat " | " entries)
    /\ List.length entries = List.length ids
    /\ (forall i id,
           nth_error ids i = Some id ->
           nth_error entries i = Some (entry articles id))
    /\ (forall i id,
           nth_error ids i = Some id ->
           lookup id articles = None ->
           nth_error entries i
           = Some "Title: No title available, Published: No publication date available").
Proof.
  intros Hr Hs Hj He Hi Hne Hsr Hss Hsj Hres Hok.
  exists (map (entry articles) ids). repeat split.
  - unfold result.
    now rewrite (pubmed_success _ _ _ _ _ _ _ _ _ _
                   Hr Hs Hj He Hi Hne Hsr Hss Hsj Hres Hok).
  - apply length_map.
  - intros i id Hi'. now apply map_nth_error.
  - intros i id Hi' Hnone. rewrite (map_nth_error _ _ _ Hi').
    unfold article_entry, summary_of. now rewrite Hnone.
Qed.

(** *** The endpoint *)

(** C1: [POST /ask] with a question: when the agent executor returns [R]
    the reply is [200] with the body [{"response": R}]; when it raises [e]
    the reply is [500] and its detail string contains [str(e)]. *)
Theorem ask_question_replies (AgentResult : Type)
    (invoke : list (string * string) ->
              list (string * list (string * string)) -> Res AgentResult)
    (query : QueryRequest) :
  (forall R,
      invoke [("input", question query)]
             [("configurable", [("session_id", "test123")])] = Ok R ->
      serve AgentResult (ask_question runtime_text AgentResult invoke query)
      = {| reply_status := 200; reply_body := [("response", Opaque R)] |})
  /\ (forall e,
         invoke [("input", question query)]
                [("configurable", [("session_id", "test123")])] = Raise e ->
         exists detail,
           serve AgentResult
             (ask_question runtime_text AgentResult invoke query)
           = {| reply_status := 500;
                reply_body := [("detail", Text detail)] |}
           /\ contains (str e) detail).
Proof.
  unfold ask_question. split.
  - intros R ->. reflexivity.
  - intros e ->. eexists. split; [reflexivity|].
    apply contains_end.
Qed.

(** ** Further properties of the two tools *)

(** *** Helper facts on the Python operations *)

Lemma all_str_inv (l : list pyval) (ss : list string) :
  all_str l = Ok ss -> l = map PStr ss.
Proof.
  revert ss. induction l as [|x l IH]; intros ss H; cbn in H.
  - injection H as <-. reflexivity.
  - destruct x; try discriminate.
    destruct (all_str l) as [ss'|]; cbn in H; [|discriminate].
    injection H as <-. cbn. now rewrite (IH ss').
Qed.

Lemma str_join_inv sep v out :
  str_join sep v = Ok out ->
  exists items, py_iter v = Ok (map PStr items)
                /\ out = String.concat sep items.
Proof.
  unfold str_join. destruct (py_iter v) as [l|]; [|discriminate].
  destruct (all_str l) as [ss|] eqn:E; cbn; [|discriminate].
  intros H. injection H as <-. exists ss. now rewrite (all_str_inv _ _ E).
Qed.

Lemma truthy_iter_nonempty v l :
  truthy v = true -> py_iter v = Ok l -> l <> [].
Proof.
  destruct v as [| | | |s|l'|d]; cbn; try discriminate.
  - destruct s; [discriminate|]. intros _ H. injection H as <-. discriminate.
  - destruct l'; [discriminate|]. intros _ H. injection H as <-. discriminate.
  - destruct d; [discriminate|]. intros _ H. injection H as <-. discriminate.
Qed.

Lemma mapR_length {A B} (f : A -> Res B) l l' :
  mapR f l = Ok l' -> List.length l' = List.length l.
Proof.
  revert l'. induction l as [|x l IH]; intros l' H; cbn in H.
  - injection H as <-. reflexivity.
  - destruct (f x); cbn in H; [|discriminate].
    destruct (mapR f l) as [ys|]; cbn in H; [|discriminate].
    injection H as <-. cbn. now rewrite (IH ys).
Qed.

Lemma mapR_Forall {A B} (f : A -> Res B) (P : B -> Prop) l l' :
  (forall x y, f x = Ok y -> P y) ->
  mapR f l = Ok l' -> Forall P l'.
Proof.
  intros Hf. revert l'. induction l as [|x l IH]; intros l' H; cbn in H.
  - injection H as <-. constructor.
  - destruct (f x) as [y|] eqn:E; cbn in H; [|discriminate].
    destruct (mapR f l) as [ys|]; cbn in H; [|discriminate].
    injection H as <-. constructor; [now apply (Hf x) | now apply IH].
Qed.

Lemma mapR_nonempty {A B} (f : A -> Res B) l l' :
  l <> [] -> mapR f l = Ok l' -> l' <> [].
Proof.
  intros Hl H E. apply mapR_length in H. subst l'.
  destruct l; [now apply Hl | discriminate].
Qed.

Lemma detailed_response_is_record articles article_id r :
  detailed_response repr_other articles article_id = Ok r -> is_record r.
Proof.
  unfold detailed_response, bindR.
  repeat case_split; try discriminate.
  intros H. injection H as <-. eexists _, _. reflexivity.
Qed.

(** *** The forms of the output *)

(** Whatever the HTTP layer answers, [fetch_pubmed_articles] returns one of
    five strings: the no-articles message, one of the two status messages
    (with a status other than 200), the exception message, or a non-empty
    list of [Title: ..., Published: ...] records joined with [" | "]. *)
Theorem pubmed_output_forms http cfg search_term :
  exists out,
    result (pubmed http cfg search_term) = Ok out
    /\ pubmed_output runtime_text out.
Proof.
  run_tool; tidy; eexists; (split; [reflexivity|]);
    try (now constructor).
  apply pubmed_records.
  - match goal with
    | Ht : negb (truthy ?v) = false, Hi : py_iter ?v = Ok ?l,
      Hm : mapR _ ?l = Ok _ |- _ =>
        apply (mapR_nonempty _ _ _ (truthy_iter_nonempty v l
                 (proj1 (negb_false_iff _) Ht) Hi) Hm)
    end.
  - match goal with
    | Hm : mapR _ _ = Ok _ |- _ =>
        apply (mapR_Forall _ _ _ _
                 (detailed_response_is_record _) Hm)
    end.
Qed.

Lemma py_get_inv obj k default v :
  py_get obj (PStr k) default = Ok v ->
  field k obj = Some v
  \/ exists d, obj = PDict d /\ lookup k d = None /\ v = default.
Proof.
  destruct obj as [| | | | | |d]; cbn; try discriminate.
  destruct (lookup k d) as [x|] eqn:E; intros H; injection H as <-.
  - now left.
  - right. now exists d.
Qed.

Lemma reaction_values_inv (l : list pyval) (ds : list pyval) :
  mapR reaction_description l = Ok ds ->
  exists reactions,
    l = map PDict reactions /\ ds = map description_value reactions.
Proof.
  revert ds. induction l as [|x l IH]; intros ds H; cbn in H.
  - injection H as <-. now exists [].
  - destruct x as [| | | | | |r]; try discriminate. cbn in H.
    destruct (mapR reaction_description l) as [ys|]; cbn in H;
      [|discriminate].
    injection H as <-. destruct (IH ys eq_refl) as (rs & -> & ->).
    exists (r :: rs). split; reflexivity.
Qed.

Lemma description_values_strings reactions (ss : list string) :
  map description_value reactions = map PStr ss ->
  Forall reaction_entry_ok reactions /\ ss = map description reactions.
Proof.
  revert ss. induction reactions as [|r l IH]; intros ss H.
  - destruct ss; [|discriminate]. split; [constructor | reflexivity].
  - destruct ss as [|x ss]; [discriminate|]. cbn in H.
    injection H as Hr Hl. destruct (IH ss Hl) as [Hok ->].
    unfold description_value in Hr. unfold description, reaction_entry_ok.
    split.
    + constructor; [|exact Hok].
      destruct (lookup "reactionmeddrapt" r) as [v|];
        [right; exists x; now rewrite Hr | now left].
    + cbn. unfold description.
      destruct (lookup "reactionmeddrapt" r) as [v|].
      * now rewrite Hr.
      * now injection Hr as <-.
Qed.

(** What the body must be for the join of the descriptions to be reached
    and to succeed. *)
Lemma fda_join_inv data results first patient side_effects reactions ds out :
  subscript_str data "results" = Ok results ->
  subscript_0 results = Ok first ->
  py_get first (PStr "patient") (PDict []) = Ok patient ->
  py_get patient (PStr "reaction") (PList []) = Ok side_effects ->
  truthy side_effects = true ->
  py_iter side_effects = Ok reactions ->
  mapR reaction_description reactions = Ok ds ->
  str_join ", " (PList ds) = Ok out ->
  exists rest rs,
    field "results" data = Some (PList (first :: rest))
    /\ field "patient" first = Some patient
    /\ field "reaction" patient = Some (PList (map PDict rs))
    /\ rs <> []
    /\ Forall reaction_entry_ok rs
    /\ out = String.concat ", " (map description rs).
Proof.
  intros Hres H0 Hp Hre Ht Hi Hm Hj.
  destruct (reaction_values_inv _ _ Hm) as (rs & -> & ->).
  destruct (str_join_inv _ _ _ Hj) as (items & Hitems & ->).
  cbn in Hitems. injection Hitems as Hitems.
  destruct (description_values_strings _ _ Hitems) as [Hok ->].
  pose proof (truthy_iter_nonempty _ _ Ht Hi) as Hne.
  (* the reaction member is a list of objects *)
  assert (Hse : side_effects = PList (map PDict rs)).
  { destruct side_effects as [| | | |s|l|d]; cbn in Hi; try discriminate;
      injection Hi as Hi.
    - destruct s; [discriminate|]. destruct rs; discriminate.
    - now subst.
    - destruct d; [discriminate|]. destruct rs; discriminate. }
  subst side_effects.
  (* it is present in the patient, which is present in the first result *)
  destruct (py_get_inv _ _ _ _ Hre) as [Hfr|(d & _ & _ & E)];
    [|destruct rs; [now destruct Hne | discriminate]].
  destruct (py_get_inv _ _ _ _ Hp) as [Hfp|(d & _ & _ & ->)];
    [|discriminate].
  (* the first result is the head of a list *)
  destruct data as [| | | | | |dd]; try discriminate. cbn in Hres.
  destruct (lookup "results" dd) as [x|] eqn:Ex; [|discriminate].
  injection Hres as ->.
  destruct results as [| | | |s|l|d]; try discriminate.
  - destruct s; [discriminate|]. cbn in H0. injection H0 as <-.
    discriminate.
  - destruct l as [|y rest]; [discriminate|]. cbn in H0. injection H0 as ->.
    exists rest, rs. cbn. rewrite Ex. repeat split; try assumption.
    intros ->. now apply Hne.
Qed.

(** Whatever the HTTP layer answers, [fetch_drug_side_effects] returns
    either one of its four messages (the two fixed ones, the status message
    with a status other than 200, the exception message), or the
    descriptions of a non-empty reaction list joined with [", "].  The
    latter happens only when the call was answered with status 200 and a
    body whose first result holds that reaction list under
    [patient.reaction], every entry an object with a string description or
    none; the output is then the join of exactly these descriptions. *)
Theorem fda_output_forms http cfg drug_name :
  exists out,
    result (fda http cfg drug_name) = Ok out
    /\ (fda_message runtime_text out
        \/ exists resp data first rest patient reactions,
            http (fda_request drug_name) = Ok resp
            /\ status_code resp = 200
            /\ json resp = Ok data
            /\ field "results" data = Some (PList (first :: rest))
            /\ field "patient" first = Some patient
            /\ field "reaction" patient = Some (PList (map PDict reactions))
            /\ reactions <> []
            /\ Forall reaction_entry_ok reactions
            /\ out = String.concat ", " (map description reactions)).
Proof.
  run_tool; tidy; eexists; (split; [reflexivity|]);
    try (left; now constructor).
  right.
  match goal with
  | Hres : subscript_str _ _ = Ok _, H0 : subscript_0 _ = Ok _,
    Hp : py_get _ (PStr "patient") _ = Ok _,
    Hre : py_get _ (PStr "reaction") _ = Ok _,
    Ht : truthy _ = true, Hi : py_iter _ = Ok _,
    Hm : mapR _ _ = Ok _, Hj : str_join _ _ = Ok _ |- _ =>
      destruct (fda_join_inv _ _ _ _ _ _ _ _ Hres H0 Hp Hre Ht Hi Hm Hj)
        as (rest & rs & H1 & H2 & H3 & H4 & H5 & ->)
  end.
  eexists _, _, _, rest, _, rs. repeat split; eassumption.
Qed.

(** *** The calls a run makes *)



(** Every call of [fetch_pubmed_articles], the summary call as well as the
    search call, goes to the [pubmed] database, asks for JSON and carries
    the configured literature-API key. *)
Theorem pubmed_calls_carry_key http cfg search_term r :
  In r (calls (pubmed http cfg search_term)) ->
  exists p,
    params r = Some p
    /\ lookup "db" p = Some (PStr "pubmed")
    /\ lookup "retmode" p = Some (PStr "json")
    /\ lookup "api_key" p = Some (env_value (PUBMED_API_KEY cfg)).
Proof.
  revert r. run_tool; intros r Hin; tidy;
    eexists; (split; [reflexivity|]); repeat split.
Qed.

(** *** Statuses *)

(** Only status 200 is a success.  A call answered with another 2xx status
    is reported like a failed one: the body is not read, the literature
    lookup makes no summary call. *)
Theorem other_2xx_is_failure http cfg search_term drug_name resp :
  200 < status_code resp <= 299 ->
  (http (search_request cfg search_term) = Ok resp ->
   run (pubmed http cfg search_term)
   = (Ok ("Error: Unable to fetch PubMed articles. Status code "
          ++ str_int (status_code resp) ++ "."),
      [search_request cfg search_term]))
  /\ (http (fda_request drug_name) = Ok resp ->
      run (fda http cfg drug_name)
      = (Ok ("Error: " ++ str_int (status_code resp)
             ++ " - Unable to fetch data from FDA API"),
         [fda_request drug_name])).
Proof.
  intros Hs.
  assert (E : (status_code resp =? 200) = false) by (apply Z.eqb_neq; lia).
  split; intros Hr; unfold_tools; now rewrite Hr, E.
Qed.

(** *** Missing and empty members *)

(** When the search body has no [esearchresult], no [idlist], or an
    [idlist] that is empty or [null], the lookup answers that no articles
    were found and does not call the summary API. *)
Theorem missing_idlist_no_articles http cfg search_term resp data :
  http (search_request cfg search_term) = Ok resp ->
  status_code resp = 200 ->
  json resp = Ok data ->
  no_identifiers data ->
  run (pubmed http cfg search_term)
  = (Ok "No articles found for this search term.",
     [search_request cfg search_term]).
Proof.
  intros Hr Hs Hj (d & -> & Hd). unfold_tools. rewrite Hr, Hs, Hj. cbn.
  destruct Hd as [H|(e & H & [H'|(v & H' & Hv)])]; rewrite H; cbn;
    try rewrite H'; try rewrite Hv; reflexivity.
Qed.

(** An empty [results] member of any container type counts as no result,
    and a [reaction] member that is [null] or empty counts as no reaction
    list. *)
Theorem empty_members_are_no_information http cfg drug_name resp data :
  http (fda_request drug_name) = Ok resp ->
  status_code resp = 200 ->
  json resp = Ok data ->
  (empty_results data ->
   result (fda http cfg drug_name)
   = Ok "No information available for this drug.")
  /\ (forall first rest,
         field "results" data = Some (PList (first :: rest)) ->
         falsy_reaction first ->
         result (fda http cfg drug_name)
         = Ok "No side effects listed for this drug.").
Proof.
  intros Hr Hs Hj. rewrite (fda_ok_body _ _ _ _ _ Hr Hs Hj). split.
  - intros (d & v & -> & H & [->|[->| ->]]); cbn; rewrite H; reflexivity.
  - intros first rest Hres (f & -> & Hf).
    destruct data as [| | | | | |d]; try discriminate. cbn in Hres.
    cbn. rewrite Hres. cbn.
    destruct Hf as [H|(p & H & [H'|(v & H' & Hv)])]; rewrite H; cbn;
      try rewrite H'; try rewrite Hv; reflexivity.
Qed.

(** *** The summary body *)

Lemma pubmed_summary_read http cfg term resp data esr ids sresp sdata
    articles :
  http (search_request cfg term) = Ok resp ->
  status_code resp = 200 ->
  json resp = Ok data ->
  field "esearchresult" data = Some esr ->
  field "idlist" esr = Some (PList (map PStr ids)) ->
  ids <> [] ->
  http (summary_request cfg (String.concat "," ids)) = Ok sresp ->
  status_code sresp = 200 ->
  json sresp = Ok sdata ->
  py_get sdata (PStr "result") (PDict []) = Ok articles ->
  run (pubmed http cfg term)
  = (match mapR (detailed_response repr_other articles) (map PStr ids) with
     | Ok records => Ok (String.concat " | " records)
     | Raise e => Ok ("Error fetching PubMed articles: " ++ str e)
     end,
     [search_request cfg term;
      summary_request cfg (String.concat "," ids)]).
Proof.
  intros Hr Hs Hj He Hi Hne Hsr Hss Hsj Hres.
  unfold_tools. rewrite Hr, Hs, Hj. cbn [Z.eqb Pos.eqb].
  rewrite (py_get_field _ _ _ _ He), (py_get_field _ _ _ _ Hi).
  replace (negb (truthy (PList (map PStr ids)))) with false
    by (destruct ids; [contradiction | reflexivity]).
  rewrite str_join_strings, Hsr, Hss, Hsj. cbn [Z.eqb Pos.eqb].
  rewrite Hres. cbn [py_iter].
  destruct (mapR _ _); reflexivity.
Qed.

Lemma mapR_first_raise {A B} (f : A -> Res B) good bad rest ys e :
  mapR f good = Ok ys ->
  f bad = Raise e ->
  mapR f (good ++ bad :: rest) = Raise e.
Proof.
  revert ys. induction good as [|x l IH]; intros ys Hg Hb; cbn.
  - now rewrite Hb.
  - cbn in Hg. destruct (f x); cbn in *; [|discriminate].
    destruct (mapR f l) as [zs|]; cbn in Hg; [|discriminate].
    now rewrite (IH zs).
Qed.

Lemma all_str_first_bad (good : list string) bad rest :
  not_a_string bad ->
  all_str (map PStr good ++ bad :: rest) = Raise (TypeError OpJoinItem bad).
Proof.
  intros Hb. induction good as [|x l IH]; cbn.
  - destruct bad; try reflexivity. now destruct (Hb s).
  - now rewrite IH.
Qed.

(** When the summary body is an object without a [result] member, every
    identifier still gets a record: the output is as many placeholder
    records as there are identifiers. *)
Theorem missing_result_map_gives_placeholders http cfg search_term resp data
    esr ids sresp sd :
  http (search_request cfg search_term) = Ok resp ->
  status_code resp = 200 ->
  json resp = Ok data ->
  field "esearchresult" data = Some esr ->
  field "idlist" esr = Some (PList (map PStr ids)) ->
  ids <> [] ->
  http (summary_request cfg (String.concat "," ids)) = Ok sresp ->
  status_code sresp = 200 ->
  json sresp = Ok (PDict sd) ->
  lookup "result" sd = None ->
  result (pubmed http cfg search_term)
  = Ok (String.concat " | "
          (repeat placeholder_record (List.length ids))).
Proof.
  intros Hr Hs Hj He Hi Hne Hsr Hss Hsj Hres. unfold result.
  rewrite (pubmed_summary_read _ _ _ _ _ _ _ _ _ (PDict [])
             Hr Hs Hj He Hi Hne Hsr Hss Hsj
             (py_get_missing _ _ _ Hres)).
  cbn [fst]. clear.
  assert (E : mapR (detailed_response repr_other (PDict [])) (map PStr ids)
              = Ok (repeat placeholder_record (List.length ids))).
  { induction ids as [|id l IH]; cbn [map mapR List.length repeat];
      [reflexivity|]. now rewrite IH. }
  now rewrite E.
Qed.

(** One summary that is not an object spoils the whole answer: when the
    result map binds an identifier to a value that is no object, the output
    is the error string of the tool and none of the records, also those of
    the identifiers before it. *)
Theorem non_object_summary_discards_records http cfg search_term resp data
    esr good bad rest sresp sdata articles v :
  http (search_request cfg search_term) = Ok resp ->
  status_code resp = 200 ->
  json resp = Ok data ->
  field "esearchresult" data = Some esr ->
  field "idlist" esr = Some (PList (map PStr (good ++ bad :: rest))) ->
  http (summary_request cfg (String.concat "," (good ++ bad :: rest)))
  = Ok sresp ->
  status_code sresp = 200 ->
  json sresp = Ok sdata ->
  field "result" sdata = Some (PDict articles) ->
  summaries_ok articles good ->
  lookup bad articles = Some v ->
  not_an_object v ->
  result (pubmed http cfg search_term)
  = Ok ("Error fetching PubMed articles: "
        ++ runtime_text (AttributeError v "get")).
Proof.
  intros Hr Hs Hj He Hi Hsr Hss Hsj Hres Hok Hbad Hv. unfold result.
  assert (Hne : (good ++ bad :: rest)%list <> []) by (now destruct good).
  rewrite (pubmed_summary_read _ _ _ _ _ _ _ _ _ (PDict articles)
             Hr Hs Hj He Hi Hne Hsr Hss Hsj
             (py_get_field _ _ _ _ Hres)).
  rewrite map_app. cbn [map].
  rewrite (mapR_first_raise _ _ _ _ _ (AttributeError v "get")
             (detailed_responses_entries _ _ Hok)); [reflexivity|].
  unfold detailed_response. cbn. rewrite Hbad.
  destruct v; try reflexivity. now destruct (Hv d).
Qed.

(** Identifiers must be strings: an identifier list with an element that is
    no string (a JSON number, say) makes the join of the identifiers fail,
    so the lookup returns the error string of the tool and never calls the
    summary API. *)
Theorem non_string_identifier_is_error http cfg search_term resp data esr
    good bad rest :
  http (search_request cfg search_term) = Ok resp ->
  status_code resp = 200 ->
  json resp = Ok data ->
  field "esearchresult" data = Some esr ->
  field "idlist" esr = Some (PList (map PStr good ++ bad :: rest)) ->
  not_a_string bad ->
  run (pubmed http cfg search_term)
  = (Ok ("Error fetching PubMed articles: "
         ++ runtime_text (TypeError OpJoinItem bad)),
     [search_request cfg search_term]).
Proof.
  intros Hr Hs Hj He Hi Hb.
  unfold_tools. rewrite Hr, Hs, Hj. cbn [Z.eqb Pos.eqb].
  rewrite (py_get_field _ _ _ _ He), (py_get_field _ _ _ _ Hi).
  replace (negb (truthy (PList (map PStr good ++ bad :: rest))))
    with false by (now destruct good).
  unfold str_join. cbn [py_iter]. now rewrite (all_str_first_bad _ _ _ Hb).
Qed.

(** *** The reaction list *)

Lemma reaction_values (reactions : list (list (string * pyval))) :
  mapR reaction_description (map PDict reactions)
  = Ok (map description_value reactions).
Proof.
  induction reactions as [|r l IH]; cbn; [reflexivity|]. now rewrite IH.
Qed.

Lemma description_values_ok (reactions : list (list (string * pyval))) :
  Forall reaction_entry_ok reactions ->
  map description_value reactions = map PStr (map description reactions).
Proof.
  induction 1 as [|r l Hr _ IH]; cbn; [reflexivity|]. rewrite IH.
  unfold description_value, description.
  destruct Hr as [H|[s H]]; now rewrite H.
Qed.

Lemma fda_reactions_read http cfg drug_name resp data first rest patient
    reactions :
  http (fda_request drug_name) = Ok resp ->
  status_code resp = 200 ->
  json resp = Ok data ->
  field "results" data = Some (PList (first :: rest)) ->
  field "patient" first = Some patient ->
  field "reaction" patient = Some (PList (map PDict reactions)) ->
  reactions <> [] ->
  result (fda http cfg drug_name)
  = match all_str (map description_value reactions) with
    | Ok descriptions => Ok (String.concat ", " descriptions)
    | Raise e => Ok ("Error fetching drug information: " ++ str e)
    end.
Proof.
  intros Hr Hs Hj Hres Hp Hre Hne.
  rewrite (fda_ok_body _ _ _ _ _ Hr Hs Hj).
  destruct data as [| | | | | |d]; try discriminate. cbn in Hres.
  cbn. rewrite Hres. cbn.
  rewrite (py_get_field _ _ _ _ Hp). cbn.
  rewrite (py_get_field _ _ _ _ Hre). cbn.
  destruct reactions as [|r0 l]; [contradiction|].
  cbn [map truthy py_iter bindR].
  change (PDict r0 :: map PDict l) with (map PDict (r0 :: l)).
  rewrite reaction_values. cbn [bindR]. unfold str_join. cbn [py_iter].
  destruct (all_str _); reflexivity.
Qed.

(** One description that is no string spoils the whole answer: the join of
    the descriptions fails, and the tool returns its error string instead of
    any of the descriptions. *)
Theorem non_string_description_discards_all http cfg drug_name resp data
    first rest patient good bad others v :
  http (fda_request drug_name) = Ok resp ->
  status_code resp = 200 ->
  json resp = Ok data ->
  field "results" data = Some (PList (first :: rest)) ->
  field "patient" first = Some patient ->
  field "reaction" patient
  = Some (PList (map PDict (good ++ bad :: others))) ->
  Forall reaction_entry_ok good ->
  lookup "reactionmeddrapt" bad = Some v ->
  not_a_string v ->
  result (fda http cfg drug_name)
  = Ok ("Error fetching drug information: "
        ++ runtime_text (TypeError OpJoinItem v)).
Proof.
  intros Hr Hs Hj Hres Hp Hre Hok Hbad Hv.
  assert (Hne : (good ++ bad :: others)%list <> []) by (now destruct good).
  rewrite (fda_reactions_read _ _ _ _ _ _ _ _ _ Hr Hs Hj Hres Hp Hre Hne).
  rewrite map_app, (description_values_ok _ Hok). cbn [map].
  unfold description_value at 1. rewrite Hbad.
  now rewrite (all_str_first_bad _ _ _ Hv).
Qed.

(** Only the first result is read: two bodies whose [results] lists start
    with the same object give the same answer, whatever follows it. *)
Theorem only_first_result_is_read http1 http2 cfg drug_name resp1 resp2
    data1 data2 first rest1 rest2 :
  http1 (fda_request drug_name) = Ok resp1 ->
  status_code resp1 = 200 ->
  json resp1 = Ok data1 ->
  field "results" data1 = Some (PList (first :: rest1)) ->
  http2 (fda_request drug_name) = Ok resp2 ->
  status_code resp2 = 200 ->
  json resp2 = Ok data2 ->
  field "results" data2 = Some (PList (first :: rest2)) ->
  result (fda http1 cfg drug_name) = result (fda http2 cfg drug_name).
Proof.
  intros Hr1 Hs1 Hj1 H1 Hr2 Hs2 Hj2 H2.
  rewrite (fda_ok_body _ _ _ _ _ Hr1 Hs1 Hj1),
          (fda_ok_body _ _ _ _ _ Hr2 Hs2 Hj2).
  destruct data1 as [| | | | | |d1]; try discriminate.
  destruct data2 as [| | | | | |d2]; try discriminate.
  cbn in H1, H2. cbn. rewrite H1, H2. reflexivity.
Qed.

(** *** Nothing is lost in the join *)

Lemma string_app_assoc (a b c : string) : (a ++ b) ++ c = a ++ b ++ c.
Proof. induction a as [|x a IH]; cbn; [reflexivity | now rewrite IH]. Qed.

Lemma contains_refl (s : string) : contains s s.
Proof. exists "", "". cbn. now rewrite append_empty_r. Qed.

Lemma contains_trans (a b c : string) :
  contains a b -> contains b c -> contains a c.
Proof.
  intros (p1 & q1 & ->) (p2 & q2 & ->).
  exists (p2 ++ p1), (q1 ++ q2). now rewrite !string_app_assoc.
Qed.

Lemma contains_concat sep (l : list string) s :
  In s l -> contains s (String.concat sep l).
Proof.
  induction l as [|x l IH]; [intros []|].
  intros [->|Hin].
  - destruct l; cbn [String.concat]; [apply contains_refl|].
    exists "", (sep ++ String.concat sep (s0 :: l)). reflexivity.
  - destruct l as [|y l]; [destruct Hin|].
    change (String.concat sep (x :: y :: l))
      with (x ++ sep ++ String.concat sep (y :: l)).
    apply (contains_trans _ _ _ (IH Hin)).
    exists (x ++ sep), "".
    now rewrite append_empty_r, string_app_assoc.
Qed.

(** On the success path the description of every reaction entry can be
    read in the output: the join drops none. *)
Theorem every_description_is_in_the_output http cfg drug_name resp data
    first rest patient reactions :
  http (fda_request drug_name) = Ok resp ->
  status_code resp = 200 ->
  json resp = Ok data ->
  field "results" data = Some (PList (first :: rest)) ->
  field "patient" first = Some patient ->
  field "reaction" patient = Some (PList (map PDict reactions)) ->
  reactions <> [] ->
  Forall reaction_entry_ok reactions ->
  exists out,
    result (fda http cfg drug_name) = Ok out
    /\ forall r, In r reactions -> contains (description r) out.
Proof.
  intros Hr Hs Hj Hres Hp Hre Hne Hok.
  rewrite (fda_reactions_read _ _ _ _ _ _ _ _ _ Hr Hs Hj Hres Hp Hre Hne).
  rewrite (description_values_ok _ Hok), all_str_strings.
  eexists. split; [reflexivity|].
  intros r Hin. apply contains_concat. now apply in_map.
Qed.

(** On the success path the title and the publication date of every
    identifier (or their placeholders) can be read in the output. *)
Theorem every_title_is_in_the_output http cfg search_term resp data esr ids
    sresp sdata articles :
  http (search_request cfg search_term) = Ok resp ->
  status_code resp = 200 ->
  json resp = Ok data ->
  field "esearchresult" data = Some esr ->
  field "idlist" esr = Some (PList (map PStr ids)) ->
  ids <> [] ->
  http (summary_request cfg (String.concat "," ids)) = Ok sresp ->
  status_code sresp = 200 ->
  json sresp = Ok sdata ->
  field "result" sdata = Some (PDict articles) ->
  summaries_ok articles ids ->
  exists out,
    result (pubmed http cfg search_term) = Ok out
    /\ forall id,
        In id ids ->
        contains (title_of repr_other (summary_of articles id)) out
        /\ contains (pubdate_of repr_other (summary_of articles id)) out.
Proof.
  intros Hr Hs Hj He Hi Hne Hsr Hss Hsj Hres Hok. unfold result.
  rewrite (pubmed_success _ _ _ _ _ _ _ _ _ _
             Hr Hs Hj He Hi Hne Hsr Hss Hsj Hres Hok).
  eexists. split; [reflexivity|].
  intros id Hin.
  assert (Hc : contains (entry articles id)
                 (String.concat " | " (map (entry articles) ids)))
    by (apply contains_concat; now apply in_map).
  split; refine (contains_trans _ _ _ _ Hc); unfold article_entry.
  - apply contains_mid.
  - exists ("Title: " ++ title_of repr_other (summary_of articles id)
            ++ ", Published: "), "".
    now rewrite append_empty_r, !string_app_assoc.
Qed.

(** *** The registry *)



(** *** The adverse-event URL *)

Lemma string_length_app (a b : string) :
  String.length (a ++ b) = (String.length a + String.length b)%nat.
Proof. induction a as [|x a IH]; cbn; [reflexivity | now rewrite IH]. Qed.

Lemma string_app_cancel_l (a b c : string) : a ++ b = a ++ c -> b = c.
Proof.
  induction a as [|x a IH]; cbn; intros H; [exact H|].
  injection H as H. now apply IH.
Qed.

Lemma string_app_cancel_r (a b c : string) : a ++ c = b ++ c -> a = b.
Proof.
  revert b. induction a as [|x a IH]; intros b H.
  - destruct b as [|y b]; [reflexivity|].
    apply (f_equal String.length) in H.
    cbn in H. rewrite string_length_app in H. lia.
  - destruct b as [|y b].
    + apply (f_equal String.length) in H.
      cbn in H. rewrite string_length_app in H. lia.
    + cbn in H. injection H as -> H. now rewrite (IH b H).
Qed.

(** The drug name can be read back from the URL: two drug names that give
    the same URL are the same name. *)
Theorem fda_url_determines_drug (d1 d2 : string) :
  FDA_API_URL d1 = FDA_API_URL d2 -> d1 = d2.
Proof.
  unfold FDA_API_URL. intros H.
  apply string_app_cancel_l in H. now apply string_app_cancel_r in H.
Qed.

(** *** Bodies that are no objects *)

(** A body that decodes to something other than an object (a list, a
    string, a number, [null]) is not an error of its own: the first [.get]
    on it fails and the lookup returns the error string of the tool.  For
    the search body that happens before any summary call; for the summary
    body it discards the identifiers found. *)
Theorem non_object_body_is_error http cfg search_term resp data :
  http (search_request cfg search_term) = Ok resp ->
  status_code resp = 200 ->
  json resp = Ok data ->
  (not_an_object data ->
   run (pubmed http cfg search_term)
   = (Ok ("Error fetching PubMed articles: "
          ++ runtime_text (AttributeError data "get")),
      [search_request cfg search_term]))
  /\ (forall esr ids sresp sdata,
         field "esearchresult" data = Some esr ->
         field "idlist" esr = Some (PList (map PStr ids)) ->
         ids <> [] ->
         http (summary_request cfg (String.concat "," ids)) = Ok sresp ->
         status_code sresp = 200 ->
         json sresp = Ok sdata ->
         not_an_object sdata ->
         result (pubmed http cfg search_term)
         = Ok ("Error fetching PubMed articles: "
               ++ runtime_text (AttributeError sdata "get"))).
Proof.
  intros Hr Hs Hj. split.
  - intros Hd. unfold_tools. rewrite Hr, Hs, Hj. cbn.
    destruct data; try reflexivity. now destruct (Hd d).
  - intros esr ids sresp sdata He Hi Hne Hsr Hss Hsj Hd.
    unfold_tools. rewrite Hr, Hs, Hj. cbn [Z.eqb Pos.eqb].
    rewrite (py_get_field _ _ _ _ He), (py_get_field _ _ _ _ Hi).
    replace (negb (truthy (PList (map PStr ids)))) with false
      by (destruct ids; [contradiction | reflexivity]).
    rewrite str_join_strings, Hsr, Hss, Hsj. cbn [Z.eqb Pos.eqb].
    destruct sdata; try reflexivity. now destruct (Hd d).
Qed.

End Properties.

(** * The properties on the sample worlds *)

Lemma ask_question_replies_witness :
  serve string
    (ask_question sample_text string invoke_answers
       {| question := "what causes fever" |})
  = {| reply_status := 200;
       reply_body :=
         [("response", Opaque "Fever is usually caused by infection.")] |}
  /\ exists detail,
      serve string
        (ask_question sample_text string invoke_fails
           {| question := "what causes fever" |})
      = {| reply_status := 500; reply_body := [("detail", Text detail)] |}
      /\ contains "model unavailable" detail.
Proof.
  split.
  - apply (proj1 (ask_question_replies sample_text string invoke_answers
                    {| question := "what causes fever" |})).
    reflexivity.
  - apply (proj2 (ask_question_replies sample_text string invoke_fails
                    {| question := "what causes fever" |})
             (External "model unavailable")).
    reflexivity.
Defined.

Lemma tools_never_raise_witness :
  result (fetch_pubmed_articles sample_repr sample_text http_down sample_cfg
            "fever causes")
  = Ok "Error fetching PubMed articles: Connection refused"
  /\ result (fetch_drug_side_effects sample_repr sample_text http_down
              sample_cfg "aspirin")
     = Ok "Error fetching drug information: Connection refused".
Proof.
  destruct (tools_never_raise sample_repr sample_text http_down sample_cfg
              "fever causes" "aspirin")
    as (_ & _ & Hp & Hf & _).
  split.
  - apply (Hp (search_request sample_cfg "fever causes")
              (External "Connection refused")).
    + left. reflexivity.
    + reflexivity.
  - apply (Hf (fda_request "aspirin") (External "Connection refused")).
    + left. reflexivity.
    + reflexivity.
Defined.

Lemma bad_status_is_reported_witness :
  returns_containing
    (fetch_pubmed_articles sample_repr sample_text (http_status 503)
       sample_cfg "fever causes") "503"
  /\ returns_containing
      (fetch_drug_side_effects sample_repr sample_text (http_status 503)
         sample_cfg "aspirin") "503".
Proof.
  assert (Hs : ~ (200 <= 503 <= 299)) by lia.
  destruct (bad_status_is_reported sample_repr sample_text (http_status 503)
              sample_cfg "fever causes" "aspirin" 503 Hs) as [Hp Hf].
  split.
  - apply (Hp (search_request sample_cfg "fever causes")
              {| status_code := 503;
                 json := Raise (External "Expecting value") |}).
    + left. reflexivity.
    + reflexivity.
    + reflexivity.
  - apply (Hf (fda_request "aspirin")
              {| status_code := 503;
                 json := Raise (External "Expecting value") |}).
    + left. reflexivity.
    + reflexivity.
    + reflexivity.
Defined.

Lemma articles_are_formatted_witness :
  result (fetch_pubmed_articles sample_repr sample_text scenario_http
            sample_cfg "diabetes symptoms")
  = Ok "Title: A, Published: 2020 | Title: B, Published: 2021".
Proof.
  refine (proj1 (articles_are_formatted sample_repr sample_text scenario_http
                   sample_cfg "diabetes symptoms"
                   {| status_code := 200; json := Ok scenario_search_body |}
                   scenario_search_body
                   (PDict [("idlist", PList [PStr "1"; PStr "2"])])
                   ["1"; "2"]%string
                   {| status_code := 200; json := Ok scenario_summary_body |}
                   scenario_summary_body
                   [("1", PDict [("title", PStr "A"); ("pubdate", PStr "2020")]);
                    ("2", PDict [("title", PStr "B"); ("pubdate", PStr "2021")])]
                   _ _ _ _ _ _ _ _ _ _ _));
    try reflexivity.
  - discriminate.
  - constructor; [right; eexists; reflexivity|].
    constructor; [right; eexists; reflexivity | constructor].
Defined.

Lemma empty_idlist_no_articles_witness :
  run (fetch_pubmed_articles sample_repr sample_text
         (http_body empty_search_body) sample_cfg "zzzz")
  = (Ok "No articles found for this search term.",
     [search_request sample_cfg "zzzz"]).
Proof.
  apply (empty_idlist_no_articles sample_repr sample_text
           (http_body empty_search_body) sample_cfg "zzzz"
           {| status_code := 200; json := Ok empty_search_body |}
           empty_search_body
           (PDict [("count", PStr "0"); ("idlist", PList [])]));
    reflexivity.
Defined.

Lemma no_information_strings_witness :
  result (fetch_drug_side_effects sample_repr sample_text
            (http_body (PDict [])) sample_cfg "aspirin")
  = Ok "No information available for this drug."
  /\ result (fetch_drug_side_effects sample_repr sample_text
              (http_body (PDict [("results", PList [PDict []])]))
              sample_cfg "aspirin")
     = Ok "No side effects listed for this drug.".
Proof.
  split.
  - apply (proj1 (no_information_strings sample_repr sample_text
                    (http_body (PDict [])) sample_cfg "aspirin"
                    {| status_code := 200; json := Ok (PDict []) |}
                    (PDict []) eq_refl eq_refl eq_refl)).
    exists []. split; [reflexivity | left; reflexivity].
  - apply (proj2 (no_information_strings sample_repr sample_text
                    (http_body (PDict [("results", PList [PDict []])]))
                    sample_cfg "aspirin"
                    {| status_code := 200;
                       json := Ok (PDict [("results", PList [PDict []])]) |}
                    (PDict [("results", PList [PDict []])])
                    eq_refl eq_refl eq_refl)
             (PDict []) []).
    + reflexivity.
    + exists []. split; [reflexivity | left; reflexivity].
Defined.

Lemma reactions_are_joined_witness :
  result (fetch_drug_side_effects sample_repr sample_text
            (http_body nausea_body) sample_cfg "aspirin")
  = Ok "NAUSEA, No description".
Proof.
  refine (proj1 (reactions_are_joined sample_repr sample_text
                   (http_body nausea_body) sample_cfg "aspirin"
                   {| status_code := 200; json := Ok nausea_body |}
                   nausea_body
                   (PDict [("patient", nausea_patient)]) []
                   nausea_patient nausea_reactions
                   _ _ _ _ _ _ _ _));
    try reflexivity.
  - discriminate.
  - constructor; [right; eexists; reflexivity|].
    constructor; [left; reflexivity | constructor].
Defined.

Lemma one_entry_per_identifier_witness :
  exists entries,
    result (fetch_pubmed_articles sample_repr sample_text partial_http
              sample_cfg "diabetes symptoms")
    = Ok (String.concat " | " entries)
    /\ List.length entries = 2%nat
    /\ nth_error entries 1
       = Some "Title: No title available, Published: No publication date available".
Proof.
  destruct (one_entry_per_identifier sample_repr sample_text partial_http
              sample_cfg "diabetes symptoms"
              {| status_code := 200; json := Ok scenario_search_body |}
              scenario_search_body
              (PDict [("idlist", PList [PStr "1"; PStr "2"])])
              ["1"; "2"]%string
              {| status_code := 200; json := Ok partial_summary_body |}
              partial_summary_body
              [("1", PDict [("title", PStr "A"); ("pubdate", PStr "2020")])])
    as (entries & Hres & Hlen & _ & Habsent); try reflexivity.
  - discriminate.
  - constructor; [right; eexists; reflexivity|].
    constructor; [left; reflexivity | constructor].
  - exists entries. split; [exact Hres|]. split; [exact Hlen|].
    apply (Habsent 1%nat "2"); reflexivity.
Defined.

(** ** Edges of the properties *)

(** Only status 200 counts as success: a 201 is reported like an error. *)
Example created_status_is_reported :
  result (fetch_pubmed_articles sample_repr sample_text (http_status 201)
            sample_cfg "fever causes")
  = Ok "Error: Unable to fetch PubMed articles. Status code 201.".
Proof. reflexivity. Qed.

(** The placeholders stand in for members that are missing; a member that
    is present with the value [null] is rendered as [None]. *)
Example null_title_is_rendered :
  detailed_response sample_repr
    (PDict [("7", PDict [("title", PNone); ("pubdate", PStr "2019")])])
    (PStr "7")
  = Ok "Title: None, Published: 2019".
Proof. reflexivity. Qed.

(** A description that is no string makes the join fail; the failure comes
    back as the error string of the tool. *)
Example numeric_description_is_an_error :
  result (fetch_drug_side_effects sample_repr sample_text
            (http_body
               (PDict [("results",
                        PList [PDict [("patient",
                          PDict [("reaction",
                            PList [PDict [("reactionmeddrapt", PInt 7)]])])]])]))
            sample_cfg "aspirin")
  = Ok "Error fetching drug information: unsupported operand".
Proof. reflexivity. Qed.

(** ** The further properties on the sample worlds *)

Lemma pubmed_calls_carry_key_witness :
  exists p,
    params (summary_request sample_cfg "1,2") = Some p
    /\ lookup "db" p = Some (PStr "pubmed")
    /\ lookup "retmode" p = Some (PStr "json")
    /\ lookup "api_key" p = Some (PStr "ncbi-key").
Proof.
  apply (pubmed_calls_carry_key sample_repr sample_text scenario_http
           sample_cfg "diabetes symptoms" (summary_request sample_cfg "1,2")).
  right. left. reflexivity.
Defined.

Lemma other_2xx_is_failure_witness :
  run (fetch_pubmed_articles sample_repr sample_text (http_status 204)
         sample_cfg "fever causes")
  = (Ok "Error: Unable to fetch PubMed articles. Status code 204.",
     [search_request sample_cfg "fever causes"])
  /\ run (fetch_drug_side_effects sample_repr sample_text (http_status 204)
           sample_cfg "aspirin")
     = (Ok "Error: 204 - Unable to fetch data from FDA API",
        [fda_request "aspirin"]).
Proof.
  assert (Hs : 200 < 204 <= 299) by lia.
  destruct (other_2xx_is_failure sample_repr sample_text (http_status 204)
              sample_cfg "fever causes" "aspirin"
              {| status_code := 204;
                 json := Raise (External "Expecting value") |} Hs)
    as [Hp Hf].
  split; [apply Hp | apply Hf]; reflexivity.
Defined.

Lemma missing_idlist_no_articles_witness :
  run (fetch_pubmed_articles sample_repr sample_text
         (http_body (PDict [("esearchresult", PDict [("idlist", PNone)])]))
         sample_cfg "zzzz")
  = (Ok "No articles found for this search term.",
     [search_request sample_cfg "zzzz"]).
Proof.
  apply (missing_idlist_no_articles sample_repr sample_text
           (http_body (PDict [("esearchresult", PDict [("idlist", PNone)])]))
           sample_cfg "zzzz"
           {| status_code := 200;
              json := Ok (PDict [("esearchresult",
                                  PDict [("idlist", PNone)])]) |}
           (PDict [("esearchresult", PDict [("idlist", PNone)])]));
    try reflexivity.
  eexists. split; [reflexivity|]. right. eexists. split; [reflexivity|].
  right. exists PNone. split; reflexivity.
Defined.

Lemma empty_members_are_no_information_witness :
  result (fetch_drug_side_effects sample_repr sample_text
            (http_body (PDict [("results", PDict [])])) sample_cfg "aspirin")
  = Ok "No information available for this drug."
  /\ result (fetch_drug_side_effects sample_repr sample_text
              (http_body
                 (PDict [("results",
                          PList [PDict [("patient",
                                         PDict [("reaction", PNone)])]])]))
              sample_cfg "aspirin")
     = Ok "No side effects listed for this drug.".
Proof.
  split.
  - apply (proj1 (empty_members_are_no_information sample_repr sample_text
                    (http_body (PDict [("results", PDict [])]))
                    sample_cfg "aspirin"
                    {| status_code := 200;
                       json := Ok (PDict [("results", PDict [])]) |}
                    (PDict [("results", PDict [])])
                    eq_refl eq_refl eq_refl)).
    eexists _, _. split; [reflexivity|]. split; [reflexivity|].
    right. left. reflexivity.
  - apply (proj2 (empty_members_are_no_information sample_repr sample_text
                    (http_body _) sample_cfg "aspirin"
                    {| status_code := 200; json := Ok _ |} _
                    eq_refl eq_refl eq_refl)
             (PDict [("patient", PDict [("reaction", PNone)])]) []).
    + reflexivity.
    + eexists. split; [reflexivity|]. right. eexists.
      split; [reflexivity|]. right. exists PNone. split; reflexivity.
Defined.

Lemma missing_result_map_gives_placeholders_witness :
  result (fetch_pubmed_articles sample_repr sample_text
            (pubmed_http scenario_search_body (PDict [])) sample_cfg
            "diabetes symptoms")
  = Ok (String.concat " | " [placeholder_record; placeholder_record]).
Proof.
  apply (missing_result_map_gives_placeholders sample_repr sample_text
           (pubmed_http scenario_search_body (PDict [])) sample_cfg
           "diabetes symptoms"
           {| status_code := 200; json := Ok scenario_search_body |}
           scenario_search_body
           (PDict [("idlist", PList [PStr "1"; PStr "2"])])
           ["1"; "2"]%string
           {| status_code := 200; json := Ok (PDict []) |} []);
    try reflexivity.
  discriminate.
Defined.

Lemma non_object_summary_discards_records_witness :
  result (fetch_pubmed_articles sample_repr sample_text
            (pubmed_http scenario_search_body broken_summary_body)
            sample_cfg "diabetes symptoms")
  = Ok "Error fetching PubMed articles: object has no attribute get".
Proof.
  apply (non_object_summary_discards_records sample_repr sample_text
           (pubmed_http scenario_search_body broken_summary_body)
           sample_cfg "diabetes symptoms"
           {| status_code := 200; json := Ok scenario_search_body |}
           scenario_search_body
           (PDict [("idlist", PList [PStr "1"; PStr "2"])])
           ["1"]%string "2" []
           {| status_code := 200; json := Ok broken_summary_body |}
           broken_summary_body
           [("1", PDict [("title", PStr "A"); ("pubdate", PStr "2020")]);
            ("2", PStr "withdrawn")]
           (PStr "withdrawn"));
    try reflexivity.
  - constructor; [right; eexists; reflexivity | constructor].
  - intros d. discriminate.
Defined.

Lemma non_string_identifier_is_error_witness :
  run (fetch_pubmed_articles sample_repr sample_text
         (http_body numeric_id_search_body) sample_cfg "diabetes symptoms")
  = (Ok "Error fetching PubMed articles: unsupported operand",
     [search_request sample_cfg "diabetes symptoms"]).
Proof.
  apply (non_string_identifier_is_error sample_repr sample_text
           (http_body numeric_id_search_body) sample_cfg "diabetes symptoms"
           {| status_code := 200; json := Ok numeric_id_search_body |}
           numeric_id_search_body
           (PDict [("idlist", PList [PStr "1"; PInt 2])])
           ["1"]%string (PInt 2) []);
    try reflexivity.
  intros s. discriminate.
Defined.

Lemma non_string_description_discards_all_witness :
  result (fetch_drug_side_effects sample_repr sample_text
            (http_body coded_body) sample_cfg "aspirin")
  = Ok "Error fetching drug information: unsupported operand".
Proof.
  apply (non_string_description_discards_all sample_repr sample_text
           (http_body coded_body) sample_cfg "aspirin"
           {| status_code := 200; json := Ok coded_body |}
           coded_body
           (PDict [("patient",
                    PDict [("reaction", PList (map PDict coded_reactions))])])
           []
           (PDict [("reaction", PList (map PDict coded_reactions))])
           [[("reactionmeddrapt", PStr "NAUSEA")]]
           [("reactionmeddrapt", PInt 7)] [] (PInt 7));
    try reflexivity.
  - constructor; [right; eexists; reflexivity | constructor].
  - intros s. discriminate.
Defined.

Lemma only_first_result_is_read_witness :
  result (fetch_drug_side_effects sample_repr sample_text
            (http_body nausea_body) sample_cfg "aspirin")
  = result (fetch_drug_side_effects sample_repr sample_text
              (http_body two_results_body) sample_cfg "aspirin").
Proof.
  apply (only_first_result_is_read sample_repr sample_text
           (http_body nausea_body) (http_body two_results_body)
           sample_cfg "aspirin"
           {| status_code := 200; json := Ok nausea_body |}
           {| status_code := 200; json := Ok two_results_body |}
           nausea_body two_results_body
           (PDict [("patient", nausea_patient)]) []
           [PDict [("patient", PDict [("reaction", PList [])])]]);
    reflexivity.
Defined.

Lemma every_description_is_in_the_output_witness :
  exists out,
    result (fetch_drug_side_effects sample_repr sample_text
              (http_body nausea_body) sample_cfg "aspirin") = Ok out
    /\ contains "NAUSEA" out
    /\ contains "No description" out.
Proof.
  destruct (every_description_is_in_the_output sample_repr sample_text
              (http_body nausea_body) sample_cfg "aspirin"
              {| status_code := 200; json := Ok nausea_body |}
              nausea_body
              (PDict [("patient", nausea_patient)]) []
              nausea_patient nausea_reactions)
    as (out & Hout & Hin); try reflexivity.
  - discriminate.
  - constructor; [right; eexists; reflexivity|].
    constructor; [left; reflexivity | constructor].
  - exists out. split; [exact Hout|]. split.
    + apply (Hin [("reactionmeddrapt", PStr "NAUSEA")]). left. reflexivity.
    + apply (Hin [("reactionoutcome", PStr "1")]). right. left. reflexivity.
Defined.

Lemma every_title_is_in_the_output_witness :
  exists out,
    result (fetch_pubmed_articles sample_repr sample_text partial_http
              sample_cfg "diabetes symptoms") = Ok out
    /\ contains "A" out
    /\ contains "No publication date available" out.
Proof.
  destruct (every_title_is_in_the_output sample_repr sample_text partial_http
              sample_cfg "diabetes symptoms"
              {| status_code := 200; json := Ok scenario_search_body |}
              scenario_search_body
              (PDict [("idlist", PList [PStr "1"; PStr "2"])])
              ["1"; "2"]%string
              {| status_code := 200; json := Ok partial_summary_body |}
              partial_summary_body
              [("1", PDict [("title", PStr "A"); ("pubdate", PStr "2020")])])
    as (out & Hout & Hin); try reflexivity.
  - discriminate.
  - constructor; [right; eexists; reflexivity|].
    constructor; [left; reflexivity | constructor].
  - exists out. split; [exact Hout|]. split.
    + apply (proj1 (Hin "1" (or_introl eq_refl))).
    + apply (proj2 (Hin "2" (or_intror (or_introl eq_refl)))).
Defined.


Lemma fda_url_determines_drug_witness : "aspirin" = "aspirin".
Proof.
  apply (fda_url_determines_drug "aspirin" "aspirin"). reflexivity.
Defined.

Lemma non_object_body_is_error_witness :
  run (fetch_pubmed_articles sample_repr sample_text
         (http_body (PList [])) sample_cfg "diabetes symptoms")
  = (Ok "Error fetching PubMed articles: object has no attribute get",
     [search_request sample_cfg "diabetes symptoms"]).
Proof.
  apply (proj1 (non_object_body_is_error sample_repr sample_text
                  (http_body (PList [])) sample_cfg "diabetes symptoms"
                  {| status_code := 200; json := Ok (PList []) |}
                  (PList []) eq_refl eq_refl eq_refl)).
  intros d. discriminate.
Defined.

(** ** A drug name that brings its own parameter *)

(** The drug name is not escaped, so a name that contains the text of a
    query parameter puts that parameter into the URL: it is not true that
    the URL is free of an API-key parameter for every drug name. *)
Lemma fda_url_may_carry_api_key :
  url (fda_request "aspirin&api_key=SECRET")
  = "https://api.fda.gov/drug/event.json?search=patient.drug.medicinalproduct:aspirin&api_key=SECRET&limit=1"
  /\ ~ (forall drug_name,
          is_substring "api_key" (url (fda_request drug_name)) = false).
Proof.
  split; [reflexivity|].
  intros H. specialize (H "aspirin&api_key=SECRET"). discriminate H.
Qed.
